(** * sqlite2es: the SQLite to Elasticsearch movie pipeline

    A shallow embedding of [sqlite2es.py] and the properties of its
    row normaliser, bulk client and connection handling.

    Conventions of the embedding:
    - a Python [str] is a [string]; a character is a code point below 256;
    - a Python exception is a value of [exn], a call that may raise returns a
      [result]; code that also touches the outside world (the SQLite
      connection, the HTTP endpoint, the root logger) is a function of the
      [world] returning a [result] and the new world;
    - [json.loads], [json.dumps], [float] and [urljoin] are library code:
      they are the fields of the class [PyLib] and every statement holds for
      all of their implementations;
    - a Python [float] is an IEEE 754 binary64, here a primitive [float]. *)

From Stdlib Require Import Ascii String Floats.
From stdpp Require Import gmap strings pretty list.

Set Warnings "-register-all".

(** ** Faults *)

Inductive exn :=
| KeyError
| TypeError
| ValueError
| AttributeError
| JSONDecodeError
| ProgrammingError
| ConnectionError.

Inductive result (A : Type) :=
| Ok (a : A)
| Raise (e : exn).
Arguments Ok {A} a.
Arguments Raise {A} e.

#[global] Instance result_ret : MRet result := λ A a, Ok a.
#[global] Instance result_bind : MBind result := λ A B f m,
  match m with
  | Ok a => f a
  | Raise e => Raise e
  end.
#[global] Instance result_fmap : FMap result := λ A B f m,
  match m with
  | Ok a => Ok (f a)
  | Raise e => Raise e
  end.

Definition is_fault {A} (r : result A) : Prop := ∃ e, r = Raise e.

(** A [for] loop that builds a list and stops at the first fault. *)
Fixpoint for_each {A B} (f : A → result B) (l : list A) : result (list B) :=
  match l with
  | [] => Ok []
  | x :: l' => y ← f x; ys ← for_each f l'; Ok (y :: ys)
  end.

(** ** Python strings *)

Definition LF : ascii := "010"%char.
Definition TAB : ascii := "009"%char.
Definition newline : string := String LF "".

(** The sentinel of the source data. *)
Definition NA : string := "N/A".

(** [c.isspace()] for a code point below 256: TAB, LF, VT, FF, CR, the four
    separators FS GS RS US, the space, NEL and the no-break space. *)
Definition py_isspace (c : ascii) : bool :=
  let n := nat_of_ascii c in
  ((9 <=? n) && (n <=? 13)) || ((28 <=? n) && (n <=? 32))
  || (n =? 133) || (n =? 160).

(** [s.split(sep)] for a one-character separator. *)
Fixpoint py_split (sep : ascii) (s : string) : list string :=
  match s with
  | EmptyString => [EmptyString]
  | String c s' =>
      if decide (c = sep) then EmptyString :: py_split sep s'
      else match py_split sep s' with
           | [] => [String c EmptyString]
           | piece :: pieces => String c piece :: pieces
           end
  end.

(** [s.replace(c, '')] for a one-character [c]. *)
Fixpoint py_remove (c : ascii) (s : string) : string :=
  match s with
  | EmptyString => EmptyString
  | String a s' => if decide (a = c) then py_remove c s' else String a (py_remove c s')
  end.

Fixpoint py_lstrip (s : string) : string :=
  match s with
  | EmptyString => EmptyString
  | String c s' => if py_isspace c then py_lstrip s' else s
  end.

Fixpoint py_rstrip (s : string) : string :=
  match s with
  | EmptyString => EmptyString
  | String c s' =>
      match py_rstrip s' with
      | EmptyString => if py_isspace c then EmptyString else String c EmptyString
      | r => String c r
      end
  end.

(** [s.strip()] *)
Definition py_strip (s : string) : string := py_rstrip (py_lstrip s).

(** [sep.join(l)] *)
Fixpoint py_join (sep : string) (l : list string) : string :=
  match l with
  | [] => EmptyString
  | [x] => x
  | x :: l' => x +:+ sep +:+ py_join sep l'
  end.

(** ** JSON values, as [json.loads] returns them and [json.dumps] takes them *)

Inductive json :=
| JNull
| JBool (b : bool)
| JInt (z : Z)
| JFloat (f : float)
| JStr (s : string)
| JArr (l : list json)
| JObj (kv : list (string * json)).

Fixpoint assoc {V} (k : string) (kv : list (string * V)) : option V :=
  match kv with
  | [] => None
  | (k', v) :: kv' => if decide (k' = k) then Some v else assoc k kv'
  end.

(** [j[k]] for a string key [k] *)
Definition py_getitem (j : json) (k : string) : result json :=
  match j with
  | JObj kv =>
      match assoc k kv with
      | Some v => Ok v
      | None => Raise KeyError
      end
  | _ => Raise TypeError
  end.

(** [j.get(k)]: only a dict has the method *)
Definition py_get (j : json) (k : string) : result json :=
  match j with
  | JObj kv => Ok (default JNull (assoc k kv))
  | _ => Raise AttributeError
  end.

(** The elements a [for] loop over [j] visits: a list gives its elements,
    a dict its keys, a string its characters; nothing else is iterable. *)
Definition py_iter (j : json) : result (list json) :=
  match j with
  | JArr l => Ok l
  | JObj kv => Ok (JStr ∘ fst <$> kv)
  | JStr s => Ok ((λ c, JStr (String c EmptyString)) <$> list_ascii_of_string s)
  | _ => Raise TypeError
  end.

(** The truth value of [j] in an [if]. *)
Definition py_truthy (j : json) : bool :=
  match j with
  | JNull => false
  | JBool b => b
  | JInt z => negb (z =? 0)%Z
  | JFloat f => negb (PrimFloat.eqb f 0%float)
  | JStr s => negb (String.eqb s EmptyString)
  | JArr l => negb (bool_decide (length l = 0))
  | JObj kv => negb (bool_decide (length kv = 0))
  end.

(** ** [dict_factory]

    A Python dict keeps its keys in the order of their first insertion:
    [d[k] = v] gives a key that is already there its new value at its old
    place and puts a new key at the end. *)
Fixpoint dict_setitem {V} (k : string) (v : V) (d : list (string * V)) : list (string * V) :=
  match d with
  | [] => [(k, v)]
  | (k', v') :: d' =>
      if decide (k' = k) then (k, v) :: d' else (k', v') :: dict_setitem k v d'
  end.

(** The loop of [dict_factory] from index [idx] on, with the dict [d]
    built so far. An entry of [cursor.description] is a 7-tuple of which
    the loop reads the first item, the column name, so the description is
    the list of these names. [row[idx]] beyond the end of the row is an
    [IndexError], here [None]. *)
Fixpoint dict_factory_loop {V} (description : list string) (row : list V) (idx : nat)
    (d : list (string * V)) : option (list (string * V)) :=
  match description with
  | [] => Some d
  | col :: description' =>
      match row !! idx with
      | Some v => dict_factory_loop description' row (S idx) (dict_setitem col v d)
      | None => None
      end
  end.

Definition dict_factory {V} (description : list string) (row : list V)
    : option (list (string * V)) :=
  dict_factory_loop description row 0 [].

(** ** Library functions the program calls *)

Class PyLib := {
  (** [json.loads]: [None] is a text that is not JSON, a [JSONDecodeError];
      the other faults of the parser (an integer literal beyond the digit
      limit, nesting beyond the recursion limit) are outside the model *)
  json_loads : string → option json;
  (** [json.dumps] *)
  json_dumps : json → string;
  (** [float] of a string: [None] is a [ValueError] *)
  py_float : string → option float;
  (** [urllib.parse.urljoin] *)
  urljoin : string → string → string
}.

(** ** Data model *)

(** A row of the [writers] table, as [dict_factory] returns it. *)
Record Writer := { writer_id : string; writer_name : string }.

(** A row of [ETL.SQL]. The columns of [movies] are text; the two actor
    aggregates of the outer join are NULL for a movie without actors. *)
Record SourceRow := {
  row_id : string;
  row_genre : string;
  row_director : string;
  row_title : string;
  row_plot : string;
  row_imdb_rating : string;
  row_actors_ids : option string;
  row_actors_names : option string;
  row_writers : string
}.

Record Actor := { actor_id : string; actor_name : string }.

(** The dict [_transform_row] returns. *)
Record Document := {
  doc_id : string;
  doc_genre : list string;
  doc_writers : list Writer;
  doc_actors : list Actor;
  doc_actors_names : list string;
  doc_writers_names : list string;
  doc_imdb_rating : option float;
  doc_title : string;
  doc_director : option (list string);
  doc_description : option string
}.

Definition opt_json {A} (f : A → json) (o : option A) : json :=
  match o with
  | Some a => f a
  | None => JNull
  end.

Definition writer_json (w : Writer) : json :=
  JObj [("id", JStr (writer_id w)); ("name", JStr (writer_name w))].

Definition actor_json (a : Actor) : json :=
  JObj [("id", JStr (actor_id a)); ("name", JStr (actor_name a))].

(** The document as the dict handed to [json.dumps], keys in insertion order. *)
Definition doc_json (d : Document) : json :=
  JObj [("id", JStr (doc_id d));
        ("genre", JArr (JStr <$> doc_genre d));
        ("writers", JArr (writer_json <$> doc_writers d));
        ("actors", JArr (actor_json <$> doc_actors d));
        ("actors_names", JArr (JStr <$> doc_actors_names d));
        ("writers_names", JArr (JStr <$> doc_writers_names d));
        ("imdb_rating", opt_json JFloat (doc_imdb_rating d));
        ("title", JStr (doc_title d));
        ("director", opt_json (λ l, JArr (JStr <$> l)) (doc_director d));
        ("description", opt_json JStr (doc_description d))].

(** ** The outside world *)

(** What a database file holds, as far as the program reads it: the rows of
    [SELECT DISTINCT id, name FROM writers] and the rows of [ETL.SQL]. *)
Record Database := { db_writers : list Writer; db_movies : list SourceRow }.

Record Connection := { conn_db : Database; conn_open : bool }.

Record world := {
  (** the database found at a path *)
  files : string → Database;
  (** every connection made so far; a connection object is its index *)
  conns : list Connection;
  (** the search service: the decoded content it answers to a POST of a
      body to a URL, or the fault of the transport *)
  es_server : string → string → result string;
  (** the requests posted so far *)
  es_posted : list (string * string);
  (** the records [logger.error] has emitted so far *)
  log : list json
}.

Definition set_conns (cs : list Connection) (w : world) : world :=
  {| files := files w; conns := cs; es_server := es_server w;
     es_posted := es_posted w; log := log w |}.

Definition set_es_posted (ps : list (string * string)) (w : world) : world :=
  {| files := files w; conns := conns w; es_server := es_server w;
     es_posted := ps; log := log w |}.

Definition set_log (l : list json) (w : world) : world :=
  {| files := files w; conns := conns w; es_server := es_server w;
     es_posted := es_posted w; log := l |}.

(** A computation that may raise and may change the world; the world
    keeps the changes made before a fault. *)
Definition M (A : Type) : Type := world → result A * world.

#[global] Instance M_ret : MRet M := λ A a w, (Ok a, w).
#[global] Instance M_bind : MBind M := λ A B f m w,
  match m w with
  | (Ok a, w') => f a w'
  | (Raise e, w') => (Raise e, w')
  end.

Definition lift {A} (r : result A) : M A := λ w, (r, w).

Definition closed (c : Connection) : Connection :=
  {| conn_db := conn_db c; conn_open := false |}.

(** [sqlite3.connect(db_path)]; a database file that cannot be opened is
    outside the model *)
Definition sqlite3_connect (db_path : string) : M nat := λ w,
  (Ok (length (conns w)),
   set_conns (conns w ++ [{| conn_db := files w db_path; conn_open := true |}]) w).

(** [conn.close()] *)
Definition conn_close (conn : nat) : M unit := λ w,
  (Ok (), set_conns (alter closed conn (conns w)) w).

(** [conn.execute(query)], read to the end; a closed connection refuses. *)
Definition conn_execute {A} (conn : nat) (query : Database → list A) : M (list A) := λ w,
  match conns w !! conn with
  | Some c => if conn_open c then (Ok (query (conn_db c)), w) else (Raise ProgrammingError, w)
  | None => (Raise ProgrammingError, w)
  end.

(** [requests.post(url, data=body, ...)] followed by [response.content.decode()] *)
Definition requests_post (url body : string) : M string := λ w,
  (es_server w url body, set_es_posted (es_posted w ++ [(url, body)]) w).

(** [logger.error(msg)] *)
Definition logger_error (msg : json) : M unit := λ w,
  (Ok (), set_log (log w ++ [msg]) w).

(** ** [conn_context]

    [contextlib.contextmanager] turns a generator function with one [yield]
    into a context manager. [__enter__] runs the generator up to the yield
    and binds the yielded value. When the body of the [with] ends normally,
    [__exit__] resumes the generator after the yield. When the body raises,
    [__exit__] throws the exception into the generator at the yield: a
    yield that stands in no [try] does not catch it, so the generator ends
    there and the exception goes on. *)
Record generator (A : Type) := {
  before_yield : M A;
  after_yield : A → M unit
}.
Arguments before_yield {A} g.
Arguments after_yield {A} g.

Definition with_contextmanager {A B} (g : generator A) (body : A → M B) : M B := λ w,
  match before_yield g w with
  | (Raise e, w1) => (Raise e, w1)
  | (Ok x, w1) =>
      match body x w1 with
      | (Ok v, w2) =>
          match after_yield g x w2 with
          | (Ok _, w3) => (Ok v, w3)
          | (Raise e, w3) => (Raise e, w3)
          end
      | (Raise e, w2) => (Raise e, w2)
      end
  end.

(** [conn.row_factory = dict_factory] makes the rows dicts keyed by column
    name; the rows of [Database] are such records already. *)
Definition conn_context (db_path : string) : generator nat :=
  {| before_yield := sqlite3_connect db_path;
     after_yield := λ conn, conn_close conn |}.

Section Program.
Context `{PyLib}.

(** ** [ESLoader] *)

Definition action_meta (index_name : string) (_id : json) : json :=
  JObj [("index", JObj [("_index", JStr index_name); ("_id", _id)])].

(** The loop of [_get_es_bulk_query], from the lines gathered so far. *)
Fixpoint bulk_query_loop (rows : list json) (index_name : string)
    (prepared_query : list string) : result (list string) :=
  match rows with
  | [] => Ok prepared_query
  | row :: rows' =>
      _id ← py_getitem row "id";
      bulk_query_loop rows' index_name
        (prepared_query ++ [json_dumps (action_meta index_name _id); json_dumps row])
  end.

Definition _get_es_bulk_query (rows : list json) (index_name : string) : result (list string) :=
  bulk_query_loop rows index_name [].

(** The body sent to the service. *)
Definition str_query (prepared_query : list string) : string :=
  py_join newline prepared_query +:+ newline.

(** The loop of [load_to_es] over the items of the response. *)
Fixpoint report_errors (items : list json) : M unit :=
  match items with
  | [] => mret ()
  | item :: items' =>
      index ← lift (py_getitem item "index");
      error_message ← lift (py_get index "error");
      (if py_truthy error_message then logger_error error_message else mret ());;
      report_errors items'
  end.

Definition load_to_es (url : string) (records : list json) (index_name : string) : M unit :=
  prepared_query ← lift (_get_es_bulk_query records index_name);
  response ← requests_post (urljoin url "_bulk") (str_query prepared_query);
  json_response ← lift (from_option Ok (Raise JSONDecodeError) (json_loads response));
  items ← lift (py_getitem json_response "items" ≫= py_iter);
  report_errors items.

(** ** [ETL] *)

(** The loop of [load_writers_names]: a later row of an id replaces an
    earlier one. *)
Definition writers_directory (table : list Writer) : gmap string Writer :=
  foldl (λ writers writer, <[writer_id writer := writer]> writers) ∅ table.

Definition load_writers_names (conn : nat) : M (gmap string Writer) :=
  table ← conn_execute conn db_writers;
  mret (writers_directory table).

(** [writers[wid]]: the key found and its record. The keys are strings, so
    another hashable value is a missing key; a list or a dict is unhashable. *)
Definition lookup_writer (writers : gmap string Writer) (wid : json) : result (string * Writer) :=
  match wid with
  | JStr k =>
      match writers !! k with
      | Some w => Ok (k, w)
      | None => Raise KeyError
      end
  | JArr _ | JObj _ => Raise TypeError
  | _ => Raise KeyError
  end.

(** The first loop of [_transform_row], from [movie_writers] and
    [writers_set] as they stand. *)
Fixpoint writers_loop (writers : gmap string Writer) (entries : list json)
    (movie_writers : list Writer) (writers_set : gset string) : result (list Writer) :=
  match entries with
  | [] => Ok movie_writers
  | writer :: entries' =>
      wid ← py_getitem writer "id";
      '(k, w) ← lookup_writer writers wid;
      if decide (writer_name w ≠ NA ∧ k ∉ writers_set)
      then writers_loop writers entries' (movie_writers ++ [w]) (writers_set ∪ {[k]})
      else writers_loop writers entries' movie_writers writers_set
  end.

Definition make_actor (p : string * string) : Actor :=
  {| actor_id := p.1; actor_name := p.2 |}.

Definition _transform_row (row : SourceRow) (writers : gmap string Writer) : result Document :=
  parsed ← from_option Ok (Raise JSONDecodeError) (json_loads (row_writers row));
  entries ← py_iter parsed;
  movie_writers ← writers_loop writers entries [] ∅;
  let '(actors, actors_names) :=
    match row_actors_ids row, row_actors_names row with
    | Some ids, Some names =>
        (make_actor <$> filter (λ p, p.2 ≠ NA) (zip (py_split "," ids) (py_split "," names)),
         filter (λ x, x ≠ NA) (py_split "," names))
    | _, _ => ([], [])
    end in
  imdb_rating ←
    (if decide (row_imdb_rating row ≠ NA)
     then Some <$> from_option Ok (Raise ValueError) (py_float (row_imdb_rating row))
     else Ok None);
  Ok {| doc_id := row_id row;
        doc_genre := py_split "," (py_remove " " (row_genre row));
        doc_writers := movie_writers;
        doc_actors := actors;
        doc_actors_names := actors_names;
        doc_writers_names := writer_name <$> movie_writers;
        doc_imdb_rating := imdb_rating;
        doc_title := row_title row;
        doc_director :=
          if decide (row_director row ≠ NA)
          then Some (py_strip <$> py_split "," (row_director row))
          else None;
        doc_description :=
          if decide (row_plot row ≠ NA) then Some (row_plot row) else None |}.

Definition load (conn : nat) (url index_name : string) : M unit :=
  writers ← load_writers_names conn;
  rows ← conn_execute conn db_movies;
  records ← lift (for_each (λ row, _transform_row row writers) rows);
  load_to_es url (doc_json <$> records) index_name.

Definition main : M unit :=
  with_contextmanager (conn_context "db.sqlite")
    (λ conn, load conn "http://127.0.0.1:9200" "movies").

End Program.

(** ** Predicates on strings used in the statements *)

(** [c in s] *)
Fixpoint str_mem (c : ascii) (s : string) : bool :=
  match s with
  | EmptyString => false
  | String a s' => bool_decide (a = c) || str_mem c s'
  end.

Definition starts_with_space (s : string) : bool :=
  match s with
  | EmptyString => false
  | String c _ => py_isspace c
  end.

Fixpoint ends_with_space (s : string) : bool :=
  match s with
  | EmptyString => false
  | String c EmptyString => py_isspace c
  | String _ s' => ends_with_space s'
  end.

Fixpoint all_space (s : string) : bool :=
  match s with
  | EmptyString => true
  | String c s' => py_isspace c && all_space s'
  end.

(** [s.count(c)] *)
Fixpoint count_char (c : ascii) (s : string) : nat :=
  match s with
  | EmptyString => 0
  | String a s' => (if decide (a = c) then 1 else 0) + count_char c s'
  end.

(** ** What the specification's words say, where they differ from the code *)

(** "strip all whitespace from the whole string": every character that is
    white space is dropped, not only the space. *)
Fixpoint strip_all_whitespace (s : string) : string :=
  match s with
  | EmptyString => EmptyString
  | String c s' =>
      if py_isspace c then strip_all_whitespace s' else String c (strip_all_whitespace s')
  end.

Definition genre_by_spec (g : string) : list string :=
  py_split "," (strip_all_whitespace g).

(** "deduplicate by writer-id, keeping first occurrence": the head stays and
    its later copies go. *)
Fixpoint first_occurrences (l : list string) : list string :=
  match l with
  | [] => []
  | k :: l' => k :: filter (λ k', k' ≠ k) (first_occurrences l')
  end.

(** "skip entries whose resolved name equals the sentinel": the ids that
    stay are those the directory resolves to a name other than the sentinel. *)
Definition known_name (writers : gmap string Writer) (k : string) : bool :=
  match writers !! k with
  | Some w => bool_decide (writer_name w ≠ NA)
  | None => false
  end.

(** "one action line followed by the document's own JSON encoding": the
    lines of the bulk body of a batch, two for each document. *)
Fixpoint bulk_lines `{PyLib} (index_name : string) (docs : list Document) : list string :=
  match docs with
  | [] => []
  | d :: docs' =>
      json_dumps (action_meta index_name (JStr (doc_id d)))
      :: json_dumps (doc_json d)
      :: bulk_lines index_name docs'
  end.

(** The value [item['index'].get('error')] of a response item, [None] when
    the item has no [index] object. *)
Definition item_error (item : json) : option json :=
  match py_getitem item "index" with
  | Ok (JObj kv) => Some (default JNull (assoc "error" kv))
  | _ => None
  end.

(** ** A concrete library and concrete data, to run the program on *)

Definition dq : string := String "034"%char EmptyString.
Definition quoted (s : string) : string := dq +:+ s +:+ dq.

(** A printer in the layout of [json.dumps] for values whose strings need
    no escape; of the floats it knows 7.5 only. *)
Fixpoint sample_dumps (j : json) : string :=
  match j with
  | JNull => "null"
  | JBool b => if b then "true" else "false"
  | JInt z => pretty z
  | JFloat f => if PrimFloat.eqb f 7.5%float then "7.5" else "NaN"
  | JStr s => quoted s
  | JArr l => "[" +:+ py_join ", " (sample_dumps <$> l) +:+ "]"
  | JObj kv =>
      "{" +:+ py_join ", " ((λ p, quoted p.1 +:+ ": " +:+ sample_dumps p.2) <$> kv) +:+ "}"
  end.

Definition id_entry (k : string) : json := JObj [("id", JStr k)].

Definition response_item (error : json) : json :=
  JObj [("index", JObj [("_id", JStr "1"); ("status", JInt 400); ("error", error)])].

Definition response_ok_item : json :=
  JObj [("index", JObj [("_id", JStr "1"); ("status", JInt 201)])].

Definition sample_error : json :=
  JObj [("type", JStr "mapper_parsing_exception"); ("reason", JStr "failed to parse")].

(** The texts the sample parser reads: the printed form of these values. *)
Definition sample_values : list json :=
  [ JArr [id_entry "w1"];
    JArr [id_entry "w1"; id_entry "w2"; id_entry "w1"; id_entry "w3"];
    JArr [id_entry "w9"];
    JObj [("items", JArr [response_ok_item; response_item sample_error; response_ok_item])];
    JObj [("items", JArr [response_item (JStr "")])];
    JObj [("items", JArr [JObj [("create", JObj [])]; response_item sample_error])];
    JObj [("items", JArr [])] ].

Definition sample_loads (s : string) : option json :=
  snd <$> list_find (λ j, sample_dumps j = s) sample_values.

Definition sample_float (s : string) : option float :=
  if decide (s = "7.5") then Some 7.5%float else None.

Definition sample_lib : PyLib :=
  {| json_loads := sample_loads;
     json_dumps := sample_dumps;
     py_float := sample_float;
     urljoin := λ base rel, base +:+ "/" +:+ rel |}.

Definition sample_writers : list Writer :=
  [ {| writer_id := "w1"; writer_name := "Jane Doe" |};
    {| writer_id := "w2"; writer_name := "N/A" |};
    {| writer_id := "w3"; writer_name := "John Roe" |} ].

(** The row of the specification's scenario, after the query has put the
    single writer into the [writers] column. *)
Definition sample_row : SourceRow :=
  {| row_id := "1"; row_genre := "Action, Drama"; row_director := "Jane Smith";
     row_title := "X"; row_plot := "N/A"; row_imdb_rating := "7.5";
     row_actors_ids := Some "a1,a2"; row_actors_names := Some "Bob,N/A";
     row_writers := sample_dumps (JArr [id_entry "w1"]) |}.

Definition sample_document : Document :=
  {| doc_id := "1"; doc_genre := ["Action"; "Drama"];
     doc_writers := [{| writer_id := "w1"; writer_name := "Jane Doe" |}];
     doc_actors := [{| actor_id := "a1"; actor_name := "Bob" |}];
     doc_actors_names := ["Bob"]; doc_writers_names := ["Jane Doe"];
     doc_imdb_rating := Some 7.5%float; doc_title := "X";
     doc_director := Some ["Jane Smith"]; doc_description := None |}.

(** Four writer entries, one repeated and one of unknown name. *)
Definition sample_row_writers : SourceRow :=
  {| row_id := "2"; row_genre := "Comedy"; row_director := "N/A";
     row_title := "Y"; row_plot := "A plot"; row_imdb_rating := "N/A";
     row_actors_ids := None; row_actors_names := None;
     row_writers :=
       sample_dumps (JArr [id_entry "w1"; id_entry "w2"; id_entry "w1"; id_entry "w3"]) |}.

(** A writer the directory does not have. *)
Definition sample_row_missing_writer : SourceRow :=
  {| row_id := "3"; row_genre := "Drama"; row_director := "N/A";
     row_title := "Z"; row_plot := "N/A"; row_imdb_rating := "N/A";
     row_actors_ids := None; row_actors_names := None;
     row_writers := sample_dumps (JArr [id_entry "w9"]) |}.

(** A rating that is neither the sentinel nor a number. *)
Definition sample_row_bad_rating : SourceRow :=
  {| row_id := "4"; row_genre := "Drama"; row_director := "N/A";
     row_title := "Z"; row_plot := "N/A"; row_imdb_rating := "seven";
     row_actors_ids := None; row_actors_names := None;
     row_writers := sample_dumps (JArr [id_entry "w1"]) |}.

(** A tab after the comma of the genre. *)
Definition sample_row_tab_genre : SourceRow :=
  {| row_id := "5"; row_genre := "Action," +:+ String TAB "Drama"; row_director := "N/A";
     row_title := "Z"; row_plot := "N/A"; row_imdb_rating := "N/A";
     row_actors_ids := None; row_actors_names := None;
     row_writers := sample_dumps (JArr [id_entry "w1"]) |}.

(** Three actor ids against two names. *)
Definition sample_row_uneven_actors : SourceRow :=
  {| row_id := "6"; row_genre := "Drama"; row_director := "N/A";
     row_title := "Z"; row_plot := "N/A"; row_imdb_rating := "N/A";
     row_actors_ids := Some "a1"; row_actors_names := Some "Bob,Ann,N/A";
     row_writers := sample_dumps (JArr [id_entry "w1"]) |}.

Definition sample_document_writers : Document :=
  {| doc_id := "2"; doc_genre := ["Comedy"];
     doc_writers := [{| writer_id := "w1"; writer_name := "Jane Doe" |};
                     {| writer_id := "w3"; writer_name := "John Roe" |}];
     doc_actors := []; doc_actors_names := [];
     doc_writers_names := ["Jane Doe"; "John Roe"];
     doc_imdb_rating := None; doc_title := "Y";
     doc_director := None; doc_description := Some "A plot" |}.

Definition sample_document_tab_genre : Document :=
  {| doc_id := "5"; doc_genre := ["Action"; String TAB "Drama"];
     doc_writers := [{| writer_id := "w1"; writer_name := "Jane Doe" |}];
     doc_actors := []; doc_actors_names := [];
     doc_writers_names := ["Jane Doe"];
     doc_imdb_rating := None; doc_title := "Z";
     doc_director := None; doc_description := None |}.

Definition sample_document_uneven_actors : Document :=
  {| doc_id := "6"; doc_genre := ["Drama"];
     doc_writers := [{| writer_id := "w1"; writer_name := "Jane Doe" |}];
     doc_actors := [{| actor_id := "a1"; actor_name := "Bob" |}];
     doc_actors_names := ["Bob"; "Ann"];
     doc_writers_names := ["Jane Doe"];
     doc_imdb_rating := None; doc_title := "Z";
     doc_director := None; doc_description := None |}.

(** A response to three documents of which the second was refused. *)
Definition sample_response : string :=
  sample_dumps
    (JObj [("items", JArr [response_ok_item; response_item sample_error; response_ok_item])]).

(** A response whose only item carries the empty string as its error. *)
Definition sample_response_empty_error : string :=
  sample_dumps (JObj [("items", JArr [response_item (JStr "")])]).

(** A response whose first item has no [index] object. *)
Definition sample_response_no_index : string :=
  sample_dumps
    (JObj [("items", JArr [JObj [("create", JObj [])]; response_item sample_error])]).

Definition sample_world (movies : list SourceRow) (reply : result string) : world :=
  {| files := λ _, {| db_writers := sample_writers; db_movies := movies |};
     conns := [];
     es_server := λ _ _, reply;
     es_posted := [];
     log := [] |}.

(** The worlds of four runs: a movie whose writer the directory lacks,
    three movies of which the service refuses the second, a movie the
    service answers with an empty error, and an answer with a broken item. *)
Definition sample_world_missing_writer : world :=
  sample_world [sample_row; sample_row_missing_writer] (Ok sample_response).

Definition sample_world_refused : world :=
  sample_world [sample_row; sample_row_writers; sample_row_tab_genre] (Ok sample_response).

Definition sample_world_empty_error : world :=
  sample_world [sample_row] (Ok sample_response_empty_error).

Definition sample_world_no_index : world :=
  sample_world [sample_row; sample_row_writers] (Ok sample_response_no_index).

(** A library whose parser answers [parsed] to every text. *)
Definition sample_lib_parsing (parsed : json) : PyLib :=
  {| json_loads := λ _, Some parsed;
     json_dumps := sample_dumps;
     py_float := sample_float;
     urljoin := λ base rel, base +:+ "/" +:+ rel |}.

(** An answer whose second item has no [index] object, between two
    refusals. *)
Definition sample_answer_broken_second : json :=
  JObj [("items", JArr [response_item sample_error; JObj [("create", JObj [])];
                        response_item sample_error])].

(** A record without an [id]. *)
Definition sample_record_without_id : json := JObj [("title", JStr "X")].

(** Worlds in which the connection 0 is open, and a world whose service
    cannot be reached. *)
Definition sample_world_connected : world :=
  (sqlite3_connect "db.sqlite" sample_world_refused).2.

Definition sample_world_connected_missing_writer : world :=
  (sqlite3_connect "db.sqlite" sample_world_missing_writer).2.

Definition sample_world_offline : world :=
  sample_world [sample_row] (Raise ConnectionError).

(** Directors with white space around the names, a tab among it. *)
Definition sample_row_directors : SourceRow :=
  {| row_id := "7"; row_genre := "Drama";
     row_director := "  Jane Smith , Bob" +:+ String TAB EmptyString;
     row_title := "Z"; row_plot := "N/A"; row_imdb_rating := "N/A";
     row_actors_ids := None; row_actors_names := None;
     row_writers := sample_dumps (JArr [id_entry "w1"]) |}.

Definition sample_document_directors : Document :=
  {| doc_id := "7"; doc_genre := ["Drama"];
     doc_writers := [{| writer_id := "w1"; writer_name := "Jane Doe" |}];
     doc_actors := []; doc_actors_names := [];
     doc_writers_names := ["Jane Doe"];
     doc_imdb_rating := None; doc_title := "Z";
     doc_director := Some ["Jane Smith"; "Bob"]; doc_description := None |}.

(** A writer the directory does not have and a rating that is no number. *)
Definition sample_row_two_faults : SourceRow :=
  {| row_id := "8"; row_genre := "Drama"; row_director := "N/A";
     row_title := "Z"; row_plot := "N/A"; row_imdb_rating := "seven";
     row_actors_ids := None; row_actors_names := None;
     row_writers := sample_dumps (JArr [id_entry "w9"]) |}.

(** * Properties *)

(** ** Strings *)

Section Strings.
Implicit Types (c : ascii) (s : string) (l : list string).

Lemma str_app_cons c s s' : String c s +:+ s' = String c (s +:+ s').
Proof. reflexivity. Qed.

Lemma str_app_nil_l s : EmptyString +:+ s = s.
Proof. reflexivity. Qed.

Lemma str_app_nil_r s : s +:+ EmptyString = s.
Proof. induction s as [|a s IH]; [done|]. by rewrite str_app_cons, IH. Qed.

Lemma str_app_assoc s1 s2 s3 : (s1 +:+ s2) +:+ s3 = s1 +:+ (s2 +:+ s3).
Proof. induction s1 as [|a s1 IH]; [done|]. by rewrite !str_app_cons, IH. Qed.

Lemma str_mem_app c s s' : str_mem c (s +:+ s') = str_mem c s || str_mem c s'.
Proof.
  induction s as [|a s IH]; [done|].
  rewrite str_app_cons. simpl. by rewrite IH, orb_assoc.
Qed.

(** A character of a piece is a character of the joined string. *)
Lemma str_mem_join c sep l s :
  s ∈ l → str_mem c s = true → str_mem c (py_join sep l) = true.
Proof.
  intros Hin Hc. induction l as [|x l IH]; [by apply elem_of_nil in Hin|].
  destruct l as [|y l].
  - apply list_elem_of_singleton in Hin as ->. done.
  - change (py_join sep (x :: y :: l)) with (x +:+ sep +:+ py_join sep (y :: l)).
    rewrite !str_mem_app. apply elem_of_cons in Hin as [->|Hin].
    + by rewrite Hc.
    + rewrite IH by done. by rewrite !orb_true_r.
Qed.

Lemma py_split_not_nil c s : py_split c s ≠ [].
Proof. induction s as [|a s IH]; simpl; [done|]. case_decide; [done|]. by destruct (py_split c s). Qed.

Lemma py_split_length_pos c s : 0 < length (py_split c s).
Proof. pose proof (py_split_not_nil c s). destruct (py_split c s); simpl; [done|lia]. Qed.

(** Joining the pieces with the separator gives the string back: the
    split loses nothing and keeps the order. *)
Lemma py_join_split c s : py_join (String c EmptyString) (py_split c s) = s.
Proof.
  induction s as [|a s IH]; simpl; [done|].
  pose proof (py_split_not_nil c s) as Hne.
  case_decide as Hac.
  - subst a. destruct (py_split c s) as [|p ps]; [done|].
    change (py_join (String c EmptyString) (EmptyString :: p :: ps))
      with (String c (py_join (String c EmptyString) (p :: ps))).
    by rewrite IH.
  - destruct (py_split c s) as [|p ps]; [done|].
    destruct ps as [|p' ps]; simpl in *; by rewrite <- IH.
Qed.

Lemma py_split_no_sep c s : Forall (λ p, str_mem c p = false) (py_split c s).
Proof.
  induction s as [|a s IH]; simpl.
  - by repeat constructor.
  - case_decide as Hac.
    + by constructor.
    + destruct (py_split c s) as [|p ps].
      * repeat constructor. simpl. by rewrite bool_decide_eq_false_2.
      * inversion_clear IH. constructor; [|done].
        simpl. by rewrite bool_decide_eq_false_2.
Qed.

Lemma py_split_whole c s : str_mem c s = false → py_split c s = [s].
Proof.
  induction s as [|a s IH]; simpl; [done|].
  intros [Ha Hs]%orb_false_elim. apply bool_decide_eq_false in Ha.
  rewrite decide_False by done. by rewrite IH.
Qed.

Lemma py_split_app_sep c s s' :
  str_mem c s = false →
  py_split c (s +:+ String c s') = s :: py_split c s'.
Proof.
  induction s as [|a s IH]; simpl.
  - intros _. by rewrite decide_True.
  - intros [Ha Hs]%orb_false_elim. apply bool_decide_eq_false in Ha.
    rewrite decide_False by done. by rewrite IH.
Qed.

(** Splitting what was joined gives the pieces back, when no piece holds
    the separator. *)
Lemma py_split_join c l :
  l ≠ [] → Forall (λ p, str_mem c p = false) l →
  py_split c (py_join (String c EmptyString) l) = l.
Proof.
  induction l as [|x l IH]; [done|]. intros _ Hall.
  inversion_clear Hall as [|? ? Hx Hl].
  destruct l as [|y l].
  - simpl. by apply py_split_whole.
  - change (py_join (String c EmptyString) (x :: y :: l))
      with (x +:+ String c (py_join (String c EmptyString) (y :: l))).
    rewrite py_split_app_sep by done. by rewrite IH.
Qed.

Lemma py_split_join_snoc c l :
  l ≠ [] → Forall (λ p, str_mem c p = false) l →
  py_split c (py_join (String c EmptyString) l +:+ String c EmptyString) = l ++ [EmptyString].
Proof.
  induction l as [|x l IH]; [done|]. intros _ Hall.
  inversion_clear Hall as [|? ? Hx Hl].
  destruct l as [|y l].
  - simpl. by rewrite py_split_app_sep.
  - change (py_join (String c EmptyString) (x :: y :: l))
      with (x +:+ String c (py_join (String c EmptyString) (y :: l))).
    rewrite str_app_assoc, str_app_cons.
    rewrite py_split_app_sep by done. by rewrite IH.
Qed.

Lemma py_remove_gone c s : str_mem c (py_remove c s) = false.
Proof.
  induction s as [|a s IH]; simpl; [done|].
  case_decide; simpl; [done|]. by rewrite bool_decide_eq_false_2.
Qed.

Lemma py_remove_other c c' s : str_mem c' (py_remove c s) = true → str_mem c' s = true.
Proof.
  induction s as [|a s IH]; simpl; [done|].
  case_decide; simpl; intros; [rewrite IH by done; apply orb_true_r|].
  destruct (bool_decide (a = c')); simpl in *; auto.
Qed.

Lemma py_remove_id c s : str_mem c s = false → py_remove c s = s.
Proof.
  induction s as [|a s IH]; simpl; [done|].
  intros [Ha Hs]%orb_false_elim. apply bool_decide_eq_false in Ha.
  rewrite decide_False by done. by rewrite IH.
Qed.

Lemma py_lstrip_start s : starts_with_space (py_lstrip s) = false.
Proof.
  induction s as [|a s IH]; simpl; [done|].
  destruct (py_isspace a) eqn:Ha; [done|]. simpl. by rewrite Ha.
Qed.

Lemma py_rstrip_end s : ends_with_space (py_rstrip s) = false.
Proof.
  induction s as [|a s IH]; simpl; [done|].
  destruct (py_rstrip s) as [|b r] eqn:Hr.
  - destruct (py_isspace a) eqn:Ha; simpl; [done|]. by rewrite Ha.
  - done.
Qed.

Lemma py_rstrip_start s : starts_with_space s = false → starts_with_space (py_rstrip s) = false.
Proof.
  destruct s as [|a s]; simpl; [done|]. intros Ha.
  destruct (py_rstrip s); simpl; [by rewrite Ha|done].
Qed.

(** A stripped string begins and ends with no white space. *)
Lemma py_strip_clean s :
  starts_with_space (py_strip s) = false ∧ ends_with_space (py_strip s) = false.
Proof.
  unfold py_strip. split.
  - apply py_rstrip_start, py_lstrip_start.
  - apply py_rstrip_end.
Qed.

Lemma py_lstrip_decompose s : ∃ pre, s = pre +:+ py_lstrip s ∧ all_space pre = true.
Proof.
  induction s as [|a s (pre & IH & Hpre)]; simpl.
  - by exists EmptyString.
  - destruct (py_isspace a) eqn:Ha.
    + exists (String a pre). simpl. rewrite Ha, Hpre, str_app_cons. by rewrite <- IH.
    + by exists EmptyString.
Qed.

Lemma py_rstrip_decompose s : ∃ post, s = py_rstrip s +:+ post ∧ all_space post = true.
Proof.
  induction s as [|a s (post & IH & Hpost)]; simpl.
  - by exists EmptyString.
  - destruct (py_rstrip s) as [|b r] eqn:Hr.
    + rewrite str_app_nil_l in IH. subst post.
      destruct (py_isspace a) eqn:Ha.
      * exists (String a s). simpl. by rewrite Ha, Hpost.
      * exists s. by rewrite str_app_cons.
    + exists post. by rewrite str_app_cons, <- IH.
Qed.

(** Stripping removes white space at the two ends and nothing else. *)
Lemma py_strip_decompose s :
  ∃ pre post, s = pre +:+ py_strip s +:+ post ∧ all_space pre = true ∧ all_space post = true.
Proof.
  destruct (py_lstrip_decompose s) as (pre & Hs & Hpre).
  destruct (py_rstrip_decompose (py_lstrip s)) as (post & Hl & Hpost).
  exists pre, post. split; [|done]. unfold py_strip. by rewrite <- Hl.
Qed.

Lemma strip_all_whitespace_spaces_only s :
  (∀ c, str_mem c s = true → py_isspace c = true → c = " "%char) →
  strip_all_whitespace s = py_remove " " s.
Proof.
  induction s as [|a s IH]; simpl; [done|]. intros Hs.
  rewrite IH by (intros c Hc; apply Hs; rewrite Hc; apply orb_true_r).
  case_decide as Ha.
  - subst a. done.
  - destruct (py_isspace a) eqn:Hsp; [|done].
    destruct Ha. apply Hs; [|done]. by rewrite bool_decide_eq_true_2.
Qed.

Lemma py_lstrip_all_space s s' : all_space s = true → py_lstrip (s +:+ s') = py_lstrip s'.
Proof.
  induction s as [|a s IH]; [done|]. simpl.
  intros [Ha Hs]%andb_true_iff. rewrite ?str_app_cons. simpl. rewrite Ha. by apply IH.
Qed.

Lemma py_lstrip_clean s : starts_with_space s = false → py_lstrip s = s.
Proof. destruct s as [|a s]; simpl; [done|]. by intros ->. Qed.

Lemma py_rstrip_all_space s : all_space s = true → py_rstrip s = EmptyString.
Proof.
  induction s as [|a s IH]; [done|]. simpl.
  intros [Ha Hs]%andb_true_iff. by rewrite IH, Ha.
Qed.

Lemma py_rstrip_clean s s' :
  ends_with_space s = false → all_space s' = true → py_rstrip (s +:+ s') = s.
Proof.
  intros Hs Hs'. induction s as [|a s IH].
  - rewrite str_app_nil_l. by apply py_rstrip_all_space.
  - rewrite str_app_cons. simpl. destruct s as [|b s].
    + rewrite str_app_nil_l, py_rstrip_all_space by done. simpl in Hs. by rewrite Hs.
    + rewrite IH by done. done.
Qed.

(** The stripped string is the only one that is the string without white
    space at its two ends. *)
Lemma py_strip_unique s t pre post :
  s = pre +:+ t +:+ post →
  all_space pre = true → all_space post = true →
  starts_with_space t = false → ends_with_space t = false →
  py_strip s = t.
Proof.
  intros -> Hpre Hpost Hstart Hend. unfold py_strip.
  rewrite py_lstrip_all_space by done. destruct t as [|a t].
  - rewrite str_app_nil_l.
    replace (py_lstrip post) with EmptyString; [done|].
    clear -Hpost. induction post as [|b post IH]; [done|]. simpl in *.
    apply andb_true_iff in Hpost as [-> Hpost]. by apply IH.
  - rewrite py_lstrip_clean by (by rewrite str_app_cons). by apply py_rstrip_clean.
Qed.

End Strings.

(** ** The row normaliser *)

(** Takes a successful run of [_transform_row] apart: the parse, the
    iteration, the writers loop and the rating all succeeded, and the
    document is the record built from them. One goal is left for each
    shape of the row: actor columns NULL or not, rating sentinel or not. *)
Ltac transform_row_inv Hdoc :=
  lazymatch type of Hdoc with
  | _transform_row ?r _ = Ok _ =>
      unfold _transform_row in Hdoc;
      destruct (json_loads (row_writers r)) as [?parsed|] eqn:?Hloads; [|discriminate Hdoc];
      cbn [from_option mbind result_bind] in Hdoc;
      destruct (py_iter _) as [?entries|] eqn:?Hiter; [|discriminate Hdoc];
      cbn [mbind result_bind] in Hdoc;
      destruct (writers_loop _ _ _ _) as [?movie_writers|] eqn:?Hloop; [|discriminate Hdoc];
      cbn [mbind result_bind] in Hdoc;
      destruct (row_actors_ids r) as [?ids|] eqn:?Hids;
      destruct (row_actors_names r) as [?names|] eqn:?Hnames;
      (destruct (decide (row_imdb_rating r ≠ NA)) as [?Hrating|?Hrating];
       [destruct (py_float (row_imdb_rating r)) as [?rating|] eqn:?Hfloat; [|discriminate Hdoc]|]);
      cbn [from_option fmap result_fmap mbind result_bind] in Hdoc;
      injection Hdoc as <-;
      cbn [doc_id doc_genre doc_writers doc_actors doc_actors_names doc_writers_names
           doc_imdb_rating doc_title doc_director doc_description]
  end.

Section Normaliser.
Context `{PyLib}.
Implicit Types (row : SourceRow) (writers : gmap string Writer) (doc : Document).

(** X18. The id and the title pass through unchanged. *)
Lemma transform_row_id_title row writers doc :
  _transform_row row writers = Ok doc →
  doc_id doc = row_id row ∧ doc_title doc = row_title row.
Proof. intros Hdoc. transform_row_inv Hdoc; done. Qed.

(** [_transform_row] returns a document exactly when the writers loop and
    the rating do. *)
Lemma transform_row_returns row writers entries movie_writers :
  (∃ parsed, json_loads (row_writers row) = Some parsed ∧ py_iter parsed = Ok entries) →
  writers_loop writers entries [] ∅ = Ok movie_writers →
  row_imdb_rating row = NA ∨ is_Some (py_float (row_imdb_rating row)) →
  ∃ doc, _transform_row row writers = Ok doc ∧ doc_writers doc = movie_writers.
Proof.
  intros (parsed & Hloads & Hiter) Hloop Hrating. unfold _transform_row.
  rewrite Hloads. cbn [from_option mbind result_bind]. rewrite Hiter.
  cbn [mbind result_bind]. rewrite Hloop. cbn [mbind result_bind].
  destruct (row_actors_ids row), (row_actors_names row);
    (destruct (decide (row_imdb_rating row ≠ NA)) as [Hne|Heq];
     [destruct Hrating as [?|[f Hf]]; [done|rewrite Hf]|]);
    cbn [from_option fmap result_fmap mbind result_bind]; eauto.
Qed.

Lemma filter_zip_names (l1 l2 : list string) :
  (filter (λ p : string * string, p.2 ≠ NA) (zip l1 l2)).*2
  = filter (λ x, x ≠ NA) (take (length l1) l2).
Proof.
  revert l2. induction l1 as [|a l1 IH]; intros [|b l2]; simpl; try done.
  rewrite !filter_cons. simpl. case_decide; simpl; by rewrite IH.
Qed.

Lemma filter_take_length (P : string → Prop) `{!∀ x, Decision (P x)} n (l : list string) :
  length (filter P (take n l)) ≤ length (filter P l).
Proof.
  rewrite <- (take_drop n l) at 2. rewrite filter_app, length_app. lia.
Qed.

Lemma make_actor_name (ps : list (string * string)) :
  actor_name <$> (make_actor <$> ps) = ps.*2.
Proof. rewrite <- list_fmap_compose. by apply list_fmap_ext. Qed.

(** The two actor fields of a document, read off the row. *)
Lemma transform_row_actor_fields row writers doc :
  _transform_row row writers = Ok doc →
  match row_actors_ids row, row_actors_names row with
  | Some ids, Some names =>
      doc_actors doc
        = make_actor <$> filter (λ p, p.2 ≠ NA) (zip (py_split "," ids) (py_split "," names))
      ∧ doc_actors_names doc = filter (λ x, x ≠ NA) (py_split "," names)
  | _, _ => doc_actors doc = [] ∧ doc_actors_names doc = []
  end.
Proof. intros Hdoc. transform_row_inv Hdoc; done. Qed.

(** C4. A row with a NULL actor column has no actors and no actor names.
    Otherwise the two columns are split on the comma and zipped by position
    before any filtering: [actors] keeps the pairs whose name is not the
    sentinel, [actors_names] the names that are not the sentinel. When the
    two splits have the same length the names of [actors] are
    [actors_names], so the two lists have the same length, at most the
    number of ids. *)
Theorem transform_row_actors row writers doc :
  _transform_row row writers = Ok doc →
  match row_actors_ids row, row_actors_names row with
  | Some ids, Some names =>
      doc_actors doc
        = make_actor <$> filter (λ p, p.2 ≠ NA) (zip (py_split "," ids) (py_split "," names))
      ∧ doc_actors_names doc = filter (λ x, x ≠ NA) (py_split "," names)
      ∧ Forall (λ a, actor_name a ≠ NA) (doc_actors doc)
      ∧ Forall (λ x, x ≠ NA) (doc_actors_names doc)
      ∧ (length (py_split "," ids) = length (py_split "," names) →
         actor_name <$> doc_actors doc = doc_actors_names doc
         ∧ length (doc_actors doc) = length (doc_actors_names doc)
         ∧ length (doc_actors_names doc) ≤ length (py_split "," ids))
  | _, _ => doc_actors doc = [] ∧ doc_actors_names doc = []
  end.
Proof.
  intros Hdoc. pose proof (transform_row_actor_fields row writers doc Hdoc) as Hfields.
  destruct (row_actors_ids row) as [ids|], (row_actors_names row) as [names|]; try done.
  destruct Hfields as [Hactors Hnames]. rewrite Hactors, Hnames.
  split_and!; [done|done| | |].
  - apply Forall_fmap, Forall_forall. intros p Hp.
    by apply list_elem_of_filter in Hp as [Hp _].
  - apply Forall_forall. intros x Hx. by apply list_elem_of_filter in Hx as [Hx _].
  - intros Hlen.
    assert (actor_name <$> (make_actor <$> filter (λ p, p.2 ≠ NA)
                              (zip (py_split "," ids) (py_split "," names)))
            = filter (λ x, x ≠ NA) (py_split "," names)) as Hnm
      by (by rewrite make_actor_name, filter_zip_names, Hlen, take_ge).
    split_and!; [done|by rewrite <- Hnm, !length_fmap|].
    rewrite Hlen. apply length_filter.
Qed.

(** C10. With both actor columns present, whatever the lengths of the two
    splits, [actors] is no longer than [actors_names]: the names of
    [actors] are the names kept among the first [len(ids)] ones, while
    [actors_names] keeps them among all the names. *)
Theorem transform_row_actors_uneven row writers doc ids names :
  row_actors_ids row = Some ids →
  row_actors_names row = Some names →
  _transform_row row writers = Ok doc →
  length (doc_actors doc) ≤ length (doc_actors_names doc)
  ∧ actor_name <$> doc_actors doc
      = filter (λ x, x ≠ NA) (take (length (py_split "," ids)) (py_split "," names))
  ∧ doc_actors_names doc = filter (λ x, x ≠ NA) (py_split "," names)
  ∧ length (doc_actors doc) ≤ length (py_split "," ids) `min` length (py_split "," names).
Proof.
  intros Hi Hn Hdoc.
  pose proof (transform_row_actor_fields row writers doc Hdoc) as Hact.
  rewrite Hi, Hn in Hact. destruct Hact as (Ha & Hns).
  assert (actor_name <$> doc_actors doc
          = filter (λ x, x ≠ NA) (take (length (py_split "," ids)) (py_split "," names))) as Hnm.
  { by rewrite Ha, make_actor_name, filter_zip_names. }
  split_and!; try done.
  - rewrite <- (length_fmap actor_name), Hnm, Hns. apply filter_take_length.
  - rewrite Ha, length_fmap. etrans; [apply length_filter|].
    rewrite length_zip. done.
Qed.

(** C5. The sentinel in a scalar column gives null: a sentinel rating gives
    no rating, a sentinel plot no description, a sentinel director no
    director (and never an empty list). Another plot passes through.
    Another director string is split on the comma and every piece is
    stripped: each name is its piece without the white space at the two
    ends of the piece, so no name begins or ends with white space. *)
Theorem transform_row_sentinels row writers doc :
  _transform_row row writers = Ok doc →
  (row_imdb_rating row = NA → doc_imdb_rating doc = None)
  ∧ (row_plot row = NA → doc_description doc = None)
  ∧ (row_plot row ≠ NA → doc_description doc = Some (row_plot row))
  ∧ doc_description doc ≠ Some NA
  ∧ (row_director row = NA → doc_director doc = None)
  ∧ (row_director row ≠ NA →
     doc_director doc = Some (py_strip <$> py_split "," (row_director row)))
  ∧ (∀ names, doc_director doc = Some names →
     names ≠ []
     ∧ Forall (λ x, starts_with_space x = false ∧ ends_with_space x = false) names
     ∧ Forall2 (λ piece name,
                  ∃ pre post, piece = pre +:+ name +:+ post
                              ∧ all_space pre = true ∧ all_space post = true)
         (py_split "," (row_director row)) names).
Proof.
  intros Hdoc.
  assert (∀ names, (if decide (row_director row ≠ NA)
                   then Some (py_strip <$> py_split "," (row_director row))
                   else None) = Some names →
          names ≠ []
          ∧ Forall (λ x, starts_with_space x = false ∧ ends_with_space x = false) names
          ∧ Forall2 (λ piece name,
                       ∃ pre post, piece = pre +:+ name +:+ post
                                   ∧ all_space pre = true ∧ all_space post = true)
              (py_split "," (row_director row)) names) as Hdir.
  { intros names Hn. case_decide; [|done]. injection Hn as <-. split_and!.
    - pose proof (py_split_not_nil "," (row_director row)).
      by destruct (py_split "," (row_director row)).
    - apply Forall_fmap, Forall_forall. intros x _. apply py_strip_clean.
    - apply Forall2_fmap_r, Forall_Forall2_diag, Forall_forall.
      intros x _. apply py_strip_decompose. }
  transform_row_inv Hdoc.
  all: split_and!; try exact Hdir; clear Hdir; try done.
  all: try (intros; case_decide; congruence).
  all: case_decide; [intros [= ?]; congruence|done].
Qed.

(** C6. A rating that is not the sentinel goes through [float]: when
    [float] rejects it, [_transform_row] raises, and so does the loop over
    any rows that hold this row; when [float] gives a number, the rating
    raises nothing, so the document is returned whenever the writers are
    read without fault, and that number is its rating. *)
Theorem transform_row_rating row writers :
  row_imdb_rating row ≠ NA →
  match py_float (row_imdb_rating row) with
  | None =>
      is_fault (_transform_row row writers)
      ∧ ∀ rows, row ∈ rows → is_fault (for_each (λ r, _transform_row r writers) rows)
  | Some f =>
      (∀ doc, _transform_row row writers = Ok doc → doc_imdb_rating doc = Some f)
      ∧ (∀ entries movie_writers,
           (∃ parsed, json_loads (row_writers row) = Some parsed
                      ∧ py_iter parsed = Ok entries) →
           writers_loop writers entries [] ∅ = Ok movie_writers →
           ∃ doc, _transform_row row writers = Ok doc
                  ∧ doc_writers doc = movie_writers
                  ∧ doc_imdb_rating doc = Some f)
  end.
Proof.
  intros Hna. destruct (py_float (row_imdb_rating row)) as [f|] eqn:Hfloat.
  - assert (∀ doc, _transform_row row writers = Ok doc → doc_imdb_rating doc = Some f)
      as Hnum.
    { intros doc Hdoc. transform_row_inv Hdoc; first [congruence|contradiction]. }
    split; [done|]. intros entries movie_writers Hparsed Hloop.
    destruct (transform_row_returns row writers entries movie_writers)
      as (doc & Hdoc & Hw); [done|done|right; by rewrite Hfloat|].
    exists doc. split_and!; [done|done|by apply Hnum].
  - assert (is_fault (_transform_row row writers)) as Hfault.
    { destruct (_transform_row row writers) as [doc|e] eqn:Hdoc; [|by exists e].
      transform_row_inv Hdoc; first [congruence|contradiction]. }
    split; [done|]. intros rows Hin.
    induction rows as [|r rows IH]; [by apply elem_of_nil in Hin|].
    apply elem_of_cons in Hin as [<-|Hin]; simpl.
    + destruct Hfault as [e ->]. by exists e.
    + destruct (_transform_row r writers); [|by eexists].
      destruct (IH Hin) as [e ->]. by exists e.
Qed.

(** C7, as the code has it. The genre string loses every space character
    and is split on the comma; white space other than the space stays.
    Joining the genres with commas gives the string without spaces back, so
    order and duplicates are kept; no genre holds a space or a comma. When
    the only white space of the string is the space, this is the genre list
    of the specification. *)
Theorem transform_row_genre row writers doc :
  _transform_row row writers = Ok doc →
  doc_genre doc = py_split "," (py_remove " " (row_genre row))
  ∧ py_join "," (doc_genre doc) = py_remove " " (row_genre row)
  ∧ Forall (λ g, str_mem " " g = false ∧ str_mem "," g = false) (doc_genre doc)
  ∧ ((∀ c, str_mem c (row_genre row) = true → py_isspace c = true → c = " "%char) →
     doc_genre doc = genre_by_spec (row_genre row)).
Proof.
  intros Hdoc.
  assert (doc_genre doc = py_split "," (py_remove " " (row_genre row))) as ->.
  { transform_row_inv Hdoc; done. }
  split_and!; [done|apply py_join_split| |].
  - apply Forall_forall. intros g Hg. split.
    + destruct (str_mem " " g) eqn:Hsp; [|done].
      pose proof (py_remove_gone " " (row_genre row)) as Hgone.
      rewrite <- (py_join_split "," (py_remove " " (row_genre row))) in Hgone.
      by rewrite (str_mem_join _ _ _ g) in Hgone.
    + pose proof (py_split_no_sep "," (py_remove " " (row_genre row))) as Hall.
      by apply (proj1 (Forall_forall _ _) Hall).
  - intros Honly. unfold genre_by_spec. by rewrite strip_all_whitespace_spaces_only.
Qed.

End Normaliser.

(** ** The writers of a row *)

Section Writers.
Context `{PyLib}.
Implicit Types (row : SourceRow) (writers : gmap string Writer) (doc : Document).
Implicit Types (entries : list json) (ids : list string) (k : string).

Lemma first_occurrences_elem k ids : k ∈ first_occurrences ids ↔ k ∈ ids.
Proof.
  induction ids as [|k' ids IH]; simpl; [done|].
  rewrite !elem_of_cons, list_elem_of_filter, IH.
  destruct (decide (k = k')); intuition congruence.
Qed.

Lemma first_occurrences_NoDup ids : NoDup (first_occurrences ids).
Proof.
  induction ids as [|k ids IH]; simpl; [constructor|].
  apply NoDup_cons. split.
  - rewrite list_elem_of_filter. by intros [Hk _].
  - by apply NoDup_filter.
Qed.

(** The ids kept stand in the order of the list they come from. *)
Lemma first_occurrences_sublist ids : first_occurrences ids `sublist_of` ids.
Proof.
  induction ids as [|k ids IH]; simpl; [done|].
  apply sublist_skip. etrans; [apply sublist_filter|done].
Qed.

Lemma filter_unseen_empty ids (seen : gset string) :
  seen = ∅ → filter (λ k, k ∉ seen) ids = ids.
Proof.
  intros ->. induction ids as [|k ids IH]; [done|].
  rewrite filter_cons_True by apply not_elem_of_empty. by rewrite IH.
Qed.

(** The directory files every record under its own id. *)
Lemma writers_directory_keyed table k w :
  writers_directory table !! k = Some w → writer_id w = k.
Proof.
  unfold writers_directory.
  assert (∀ (m : gmap string Writer),
            (∀ k w, m !! k = Some w → writer_id w = k) →
            ∀ k w, foldl (λ ws w', <[writer_id w' := w']> ws) m table !! k = Some w →
                   writer_id w = k) as Hgen.
  { induction table as [|w' table IH]; intros m Hm k' w''; simpl; [apply Hm|].
    apply IH. intros k2 w2. rewrite lookup_insert. case_decide; naive_solver. }
  apply Hgen. intros k' w'. by rewrite lookup_empty.
Qed.

(** The record of an id is the last row of the table with that id. *)
Lemma writers_directory_last table k :
  writers_directory table !! k = last (filter (λ w, writer_id w = k) table).
Proof.
  unfold writers_directory.
  assert (∀ (m : gmap string Writer),
            foldl (λ ws w', <[writer_id w' := w']> ws) m table !! k
            = from_option Some (m !! k) (last (filter (λ w, writer_id w = k) table))) as Hgen.
  { induction table as [|w' table IH]; intros m; simpl; [done|].
    rewrite IH, filter_cons, lookup_insert. case_decide as Hk.
    - rewrite last_cons. by destruct (last _).
    - done. }
  rewrite Hgen, lookup_empty. by destruct (last _).
Qed.

(** The loop over entries that are all resolved: it returns, and what it
    adds are the records of the first occurrences of the ids of known name
    that were not seen before. *)
Lemma writers_loop_resolved writers entries ids movie_writers writers_set :
  Forall2 (λ writer k, py_getitem writer "id" = Ok (JStr k)) entries ids →
  Forall (λ k, is_Some (writers !! k)) ids →
  ∃ added,
    writers_loop writers entries movie_writers writers_set = Ok (movie_writers ++ added)
    ∧ Forall2 (λ w k, writers !! k = Some w) added
        (filter (λ k, k ∉ writers_set)
           (first_occurrences (filter (λ k, known_name writers k = true) ids))).
Proof.
  intros Hent. revert movie_writers writers_set.
  induction Hent as [|writer k entries ids Hid Hent IH]; intros mw seen Hall.
  - exists []. rewrite app_nil_r. split; [done|constructor].
  - apply Forall_cons in Hall as [[w Hw] Hall]. simpl. rewrite Hid.
    cbn [mbind result_bind]. unfold lookup_writer. rewrite Hw.
    cbn [mbind result_bind]. case_decide as Hkeep.
    + destruct Hkeep as [Hname Hnew].
      destruct (IH (mw ++ [w]) (seen ∪ {[k]}) Hall) as (added & -> & Hres).
      exists (w :: added). split; [by rewrite <- app_assoc|].
      rewrite filter_cons_True by (unfold known_name; rewrite Hw; by apply bool_decide_eq_true).
      simpl. rewrite filter_cons_True by done. constructor; [done|].
      rewrite list_filter_filter.
      erewrite list_filter_iff; [exact Hres|]. intros x.
      rewrite not_elem_of_union, not_elem_of_singleton. intuition.
    + destruct (decide (writer_name w = NA)) as [Hna|Hname].
      * rewrite filter_cons_False; [by apply IH|].
        unfold known_name. rewrite Hw. rewrite bool_decide_eq_false_2; [done|]. by intros ?.
      * assert (k ∈ seen) as Hseen.
        { destruct (decide (k ∈ seen)); [done|]. destruct Hkeep. done. }
        rewrite filter_cons_True by (unfold known_name; rewrite Hw; by apply bool_decide_eq_true).
        simpl. rewrite filter_cons_False by (intros ?; done).
        rewrite list_filter_filter_l by (intros x ? ->; done). by apply IH.
Qed.

(** The loop over entries of which one names a writer the directory does
    not have: it raises, whatever it had gathered. *)
Lemma writers_loop_missing writers entries writer k movie_writers writers_set :
  writer ∈ entries →
  py_getitem writer "id" = Ok (JStr k) →
  writers !! k = None →
  is_fault (writers_loop writers entries movie_writers writers_set).
Proof.
  intros Hin Hid Hk. revert movie_writers writers_set.
  induction entries as [|writer' entries IH]; intros mw seen; [by apply elem_of_nil in Hin|].
  apply elem_of_cons in Hin as [<-|Hin]; simpl.
  - rewrite Hid. cbn [mbind result_bind]. unfold lookup_writer. rewrite Hk. by exists KeyError.
  - destruct (py_getitem writer' "id") as [wid|e]; [|by exists e].
    cbn [mbind result_bind].
    destruct (lookup_writer writers wid) as [[k' w']|e]; [|by exists e].
    cbn [mbind result_bind]. case_decide; by apply IH.
Qed.

(** C2. Take a row whose writers column parses to an array. If an entry
    names a writer-id the directory does not have, [_transform_row] raises:
    the entry is neither skipped nor replaced. If every entry names a
    writer-id the directory has, the loop raises nothing, whatever the
    names, and no record whose name is the sentinel is among the writers
    gathered; with a rating that is the sentinel or a number the document
    is returned with these writers. *)
Theorem transform_row_missing_writer row writers entries :
  json_loads (row_writers row) = Some (JArr entries) →
  (∀ writer k,
     writer ∈ entries → py_getitem writer "id" = Ok (JStr k) → writers !! k = None →
     is_fault (_transform_row row writers))
  ∧ (∀ ids,
       Forall2 (λ writer k, py_getitem writer "id" = Ok (JStr k)) entries ids →
       Forall (λ k, is_Some (writers !! k)) ids →
       ∃ movie_writers,
         writers_loop writers entries [] ∅ = Ok movie_writers
         ∧ Forall (λ w, writer_name w ≠ NA) movie_writers
         ∧ (∀ k w, k ∈ ids → writers !! k = Some w → writer_name w = NA →
                   w ∉ movie_writers)
         ∧ (row_imdb_rating row = NA ∨ is_Some (py_float (row_imdb_rating row)) →
            ∃ doc, _transform_row row writers = Ok doc ∧ doc_writers doc = movie_writers)).
Proof.
  intros Hloads. split.
  - intros writer k Hin Hid Hk.
    destruct (writers_loop_missing writers entries writer k [] ∅ Hin Hid Hk) as [e He].
    exists e. unfold _transform_row. rewrite Hloads.
    cbn [from_option py_iter mbind result_bind]. by rewrite He.
  - intros ids Hent Hall.
    destruct (writers_loop_resolved writers entries ids [] ∅ Hent Hall)
      as (movie_writers & Hloop & Hres).
    rewrite app_nil_l in Hloop. exists movie_writers.
    assert (Forall (λ w, writer_name w ≠ NA) movie_writers) as Hnames.
    { apply Forall_forall. intros w Hw.
      apply list_elem_of_lookup in Hw as [i Hi].
      destruct (Forall2_lookup_l _ _ _ _ _ Hres Hi) as (k & Hk & Hwk).
      apply list_elem_of_lookup_2, list_elem_of_filter in Hk as [_ Hk].
      apply first_occurrences_elem, list_elem_of_filter in Hk as [Hk _].
      unfold known_name in Hk. rewrite Hwk in Hk. by apply bool_decide_eq_true in Hk. }
    split_and!; [done|done| |].
    + intros k w _ _ Hna Hw. by apply (proj1 (Forall_forall _ _) Hnames) in Hw.
    + intros Hrating. apply (transform_row_returns row writers entries); [|done|done].
      by exists (JArr entries).
Qed.

(** C3. Take a row whose writers column parses to an array of objects with
    string ids, all of them in the directory built by [load_writers_names].
    The loop returns the records, looked up in the directory, of the first
    occurrences of the ids whose name is not the sentinel, in the order of
    the array: no id twice, no sentinel name. A document returned for the
    row has these writers, and its [writers_names] are their names in the
    same order; the document is returned when the rating is the sentinel or
    a number. *)
Theorem transform_row_writers row table entries ids :
  json_loads (row_writers row) = Some (JArr entries) →
  Forall2 (λ writer k, py_getitem writer "id" = Ok (JStr k)) entries ids →
  Forall (λ k, is_Some (writers_directory table !! k)) ids →
  ∃ movie_writers,
    writers_loop (writers_directory table) entries [] ∅ = Ok movie_writers
    ∧ Forall2 (λ w k, writers_directory table !! k = Some w) movie_writers
        (first_occurrences (filter (λ k, known_name (writers_directory table) k = true) ids))
    ∧ writer_id <$> movie_writers
        = first_occurrences (filter (λ k, known_name (writers_directory table) k = true) ids)
    ∧ NoDup (writer_id <$> movie_writers)
    ∧ writer_id <$> movie_writers `sublist_of` ids
    ∧ Forall (λ w, writer_name w ≠ NA) movie_writers
    ∧ (∀ doc, _transform_row row (writers_directory table) = Ok doc →
         doc_writers doc = movie_writers
         ∧ doc_writers_names doc = writer_name <$> doc_writers doc)
    ∧ (row_imdb_rating row = NA ∨ is_Some (py_float (row_imdb_rating row)) →
       ∃ doc, _transform_row row (writers_directory table) = Ok doc).
Proof.
  intros Hloads Hent Hall.
  destruct (writers_loop_resolved _ entries ids [] ∅ Hent Hall)
    as (movie_writers & Hloop & Hres).
  rewrite app_nil_l in Hloop. exists movie_writers.
  rewrite filter_unseen_empty in Hres by done.
  assert (writer_id <$> movie_writers
          = first_occurrences (filter (λ k, known_name (writers_directory table) k = true) ids))
    as Hids.
  { clear Hloop. revert Hres. generalize (first_occurrences
      (filter (λ k, known_name (writers_directory table) k = true) ids)).
    intros ks Hres. induction Hres as [|w k ws ks Hw _ IH]; [done|].
    by rewrite fmap_cons, IH, (writers_directory_keyed table k w). }
  split_and!; try done.
  - rewrite Hids. apply first_occurrences_NoDup.
  - rewrite Hids. etrans; [apply first_occurrences_sublist|apply sublist_filter].
  - apply Forall_forall. intros w Hw.
    apply list_elem_of_lookup in Hw as [i Hi].
    destruct (Forall2_lookup_l _ _ _ _ _ Hres Hi) as (k & Hk & Hwk).
    apply list_elem_of_lookup_2, first_occurrences_elem, list_elem_of_filter in Hk as [Hk _].
    unfold known_name in Hk. rewrite Hwk in Hk. by apply bool_decide_eq_true in Hk.
  - intros doc Hdoc. unfold _transform_row in Hdoc. rewrite Hloads in Hdoc.
    cbn [from_option py_iter mbind result_bind] in Hdoc. rewrite Hloop in Hdoc.
    cbn [mbind result_bind] in Hdoc.
    destruct (row_actors_ids row), (row_actors_names row);
      (destruct (decide (row_imdb_rating row ≠ NA));
       [destruct (py_float (row_imdb_rating row)); [|discriminate Hdoc]|]);
      cbn [from_option fmap result_fmap mbind result_bind] in Hdoc;
      by injection Hdoc as <-.
  - intros Hrating.
    destruct (transform_row_returns row (writers_directory table) entries movie_writers)
      as (doc & Hdoc & _); [by exists (JArr entries)|done|done|by exists doc].
Qed.

End Writers.

(** ** The bulk client *)

Section Bulk.
Context `{PyLib}.
Implicit Types (docs : list Document) (items : list json) (w : world).

Lemma bulk_query_loop_docs docs index_name prepared_query :
  bulk_query_loop (doc_json <$> docs) index_name prepared_query
  = Ok (prepared_query ++ bulk_lines index_name docs).
Proof.
  revert prepared_query. induction docs as [|d docs IH]; intros acc; simpl.
  - by rewrite app_nil_r.
  - rewrite IH. by rewrite <- app_assoc.
Qed.

Lemma bulk_lines_length docs index_name :
  length (bulk_lines index_name docs) = 2 * length docs.
Proof. induction docs as [|d docs IH]; simpl; [done|]. rewrite IH. lia. Qed.

Lemma bulk_lines_lookup docs index_name i d :
  docs !! i = Some d →
  bulk_lines index_name docs !! (2 * i)
    = Some (json_dumps (action_meta index_name (JStr (doc_id d))))
  ∧ bulk_lines index_name docs !! (2 * i + 1) = Some (json_dumps (doc_json d)).
Proof.
  revert i. induction docs as [|d' docs IH]; intros [|i] Hi; simplify_eq/=; [done|].
  replace (i + S (i + 0)) with (S (2 * i)) by lia.
  replace (i + S (i + 0) + 1) with (S (2 * i + 1)) by lia. simpl. by apply IH.
Qed.

(** The loop over the items touches the log only. *)
Lemma report_errors_frame items w :
  conns (report_errors items w).2 = conns w
  ∧ es_posted (report_errors items w).2 = es_posted w.
Proof.
  revert w. induction items as [|item items IH]; intros w; [done|].
  simpl. unfold mbind, M_bind, lift, mret, M_ret, logger_error.
  destruct (py_getitem item "index") as [index|e]; [|done].
  destruct (py_get index "error") as [error_message|e]; [|done].
  destruct (py_truthy error_message); by rewrite (proj1 (IH _)), (proj2 (IH _)).
Qed.

(** The loop over items that all have an [index] object: nothing is
    raised, and the errors logged are the truthy ones, in the order of the
    items. *)
Lemma report_errors_log items w :
  Forall (λ item, is_Some (item_error item)) items →
  (report_errors items w).1 = Ok ()
  ∧ log (report_errors items w).2
    = log w ++ filter (λ e, py_truthy e = true) (omap item_error items).
Proof.
  intros Hitems. revert w.
  induction Hitems as [|item items [e He] _ IH]; intros w.
  - simpl. by rewrite app_nil_r.
  - simpl. rewrite He. unfold item_error in He.
    unfold mbind, M_bind, lift, mret, M_ret, logger_error.
    destruct (py_getitem item "index") as [[| | | | | |kv]|]; try done.
    injection He as <-. simpl.
    destruct (py_truthy (default JNull (assoc "error" kv))) eqn:Htruthy.
    + rewrite filter_cons_True by done.
      destruct (IH (set_log (log w ++ [default JNull (assoc "error" kv)]) w)) as [-> ->].
      simpl. by rewrite <- app_assoc.
    + rewrite filter_cons_False by (by rewrite Htruthy). apply IH.
Qed.

(** [load_to_es] on a batch of documents, step by step. *)
Lemma load_to_es_docs url docs index_name w :
  load_to_es url (doc_json <$> docs) index_name w
  = let body := str_query (bulk_lines index_name docs) in
    let w1 := set_es_posted (es_posted w ++ [(urljoin url "_bulk", body)]) w in
    match es_server w (urljoin url "_bulk") body with
    | Raise e => (Raise e, w1)
    | Ok response =>
        match json_loads response with
        | None => (Raise JSONDecodeError, w1)
        | Some json_response =>
            match py_getitem json_response "items" ≫= py_iter with
            | Raise e => (Raise e, w1)
            | Ok items => report_errors items w1
            end
        end
    end.
Proof.
  unfold load_to_es, _get_es_bulk_query. rewrite bulk_query_loop_docs, app_nil_l.
  unfold mbind at 1 2 3 4, M_bind, lift, requests_post. simpl.
  destruct (es_server w _ _) as [response|e]; [|done].
  destruct (json_loads response) as [json_response|]; [|done]. simpl.
  by destruct (py_getitem json_response "items" ≫= py_iter).
Qed.

Lemma load_to_es_frame url docs index_name w :
  conns (load_to_es url (doc_json <$> docs) index_name w).2 = conns w
  ∧ es_posted (load_to_es url (doc_json <$> docs) index_name w).2
    = es_posted w ++ [(urljoin url "_bulk", str_query (bulk_lines index_name docs))].
Proof.
  rewrite load_to_es_docs. simpl.
  destruct (es_server w _ _) as [response|e]; simpl; [|done].
  destruct (json_loads response) as [json_response|]; simpl; [|done].
  destruct (py_getitem json_response "items" ≫= py_iter) as [items|e]; simpl; [|done].
  by rewrite (proj1 (report_errors_frame _ _)), (proj2 (report_errors_frame _ _)).
Qed.

(** C8. For a batch of documents and an index name, [_get_es_bulk_query]
    returns two lines for each document, in the order of the batch: the
    printed action, whose [_index] is the index name and whose [_id] is the
    [id] of the document, and then the printed document. [load_to_es] posts
    once, to the [_bulk] endpoint, these lines joined by newlines with a
    newline at the end. When the batch is not empty and no printed line
    holds a newline, splitting the body on newlines gives these lines and
    an empty rest; the body of an empty batch is one newline. *)
Theorem bulk_body_pairs docs index_name :
  _get_es_bulk_query (doc_json <$> docs) index_name = Ok (bulk_lines index_name docs)
  ∧ length (bulk_lines index_name docs) = 2 * length docs
  ∧ (∀ i d, docs !! i = Some d →
       bulk_lines index_name docs !! (2 * i)
         = Some (json_dumps (action_meta index_name (JStr (doc_id d))))
       ∧ bulk_lines index_name docs !! (2 * i + 1) = Some (json_dumps (doc_json d))
       ∧ (py_getitem (action_meta index_name (JStr (doc_id d))) "index"
            ≫= λ action, py_getitem action "_index") = Ok (JStr index_name)
       ∧ (py_getitem (action_meta index_name (JStr (doc_id d))) "index"
            ≫= λ action, py_getitem action "_id") = py_getitem (doc_json d) "id"
       ∧ py_getitem (doc_json d) "id" = Ok (JStr (doc_id d)))
  ∧ (∀ url w,
       es_posted (load_to_es url (doc_json <$> docs) index_name w).2
       = es_posted w ++ [(urljoin url "_bulk", str_query (bulk_lines index_name docs))])
  ∧ str_query (bulk_lines index_name docs)
    = py_join newline (bulk_lines index_name docs) +:+ newline
  ∧ (docs ≠ [] →
     Forall (λ line, str_mem LF line = false) (bulk_lines index_name docs) →
     py_split LF (str_query (bulk_lines index_name docs))
     = bulk_lines index_name docs ++ [EmptyString])
  ∧ (docs = [] → str_query (bulk_lines index_name docs) = newline).
Proof.
  split_and!.
  - unfold _get_es_bulk_query. by rewrite bulk_query_loop_docs.
  - apply bulk_lines_length.
  - intros i d Hi. destruct (bulk_lines_lookup docs index_name i d Hi) as [-> ->].
    by split_and!.
  - intros url w. apply load_to_es_frame.
  - done.
  - intros Hne Hlines. apply py_split_join_snoc; [|done]. by destruct docs.
  - by intros ->.
Qed.

(** C9, as the code has it. Take a response the service answers to the
    batch that parses to an object whose [items] is an array of objects,
    each with an [index] object. [load_to_es] raises nothing, and it logs
    the [error] values that are truthy, one record each, in the order of
    the items; an item whose [error] is missing, null or otherwise falsy
    logs nothing and stops nothing. *)
Theorem load_to_es_logs_errors url docs index_name w response json_response items :
  es_server w (urljoin url "_bulk") (str_query (bulk_lines index_name docs)) = Ok response →
  json_loads response = Some json_response →
  py_getitem json_response "items" = Ok (JArr items) →
  Forall (λ item, is_Some (item_error item)) items →
  (load_to_es url (doc_json <$> docs) index_name w).1 = Ok ()
  ∧ log (load_to_es url (doc_json <$> docs) index_name w).2
    = log w ++ filter (λ e, py_truthy e = true) (omap item_error items)
  ∧ length (omap item_error items) = length items.
Proof.
  intros Hpost Hloads Hitems Hwf.
  rewrite load_to_es_docs. simpl. rewrite Hpost, Hloads, Hitems. simpl.
  destruct (report_errors_log items
              (set_es_posted (es_posted w ++ [(urljoin url "_bulk",
                 str_query (bulk_lines index_name docs))]) w) Hwf) as [Hok Hlog].
  split_and!; [done|done|].
  clear -Hwf. induction Hwf as [|item items [e He] _ IH]; [done|].
  simpl. rewrite He. simpl. f_equal. exact IH.
Qed.

End Bulk.

(** ** The run *)

Section Pipeline.
Context `{PyLib}.
Implicit Types (w : world) (conn : nat).

(** [load], step by step: both queries need the connection open. *)
Lemma load_steps conn url index_name w :
  load conn url index_name w
  = match conns w !! conn with
    | Some c =>
        if conn_open c
        then match for_each (λ row, _transform_row row (writers_directory (db_writers (conn_db c))))
                     (db_movies (conn_db c)) with
             | Ok records => load_to_es url (doc_json <$> records) index_name w
             | Raise e => (Raise e, w)
             end
        else (Raise ProgrammingError, w)
    | None => (Raise ProgrammingError, w)
    end.
Proof.
  unfold load, load_writers_names.
  unfold mbind at 1 2 3 4, M_bind, conn_execute, lift, mret, M_ret.
  destruct (conns w !! conn) as [c|] eqn:Hc; [|done].
  destruct (conn_open c) eqn:Hopen; [|done].
  rewrite Hc, Hopen. by destruct (for_each _ (db_movies (conn_db c))).
Qed.

(** [load] leaves the connections as they are. *)
Lemma load_conns conn url index_name w :
  conns (load conn url index_name w).2 = conns w.
Proof.
  rewrite load_steps.
  destruct (conns w !! conn) as [c|]; [|done].
  destruct (conn_open c); [|done].
  destruct (for_each _ (db_movies (conn_db c))) as [records|e]; [|done].
  apply load_to_es_frame.
Qed.

(** X16. A fault of the normaliser on a row of the query ends [load] before
    anything is posted. *)
Lemma load_row_fault conn url index_name w c row :
  conns w !! conn = Some c → conn_open c = true →
  row ∈ db_movies (conn_db c) →
  is_fault (_transform_row row (writers_directory (db_writers (conn_db c)))) →
  is_fault (load conn url index_name w).1
  ∧ es_posted (load conn url index_name w).2 = es_posted w.
Proof.
  intros Hc Hopen Hin Hfault.
  assert (is_fault (for_each (λ r, _transform_row r (writers_directory (db_writers (conn_db c))))
                      (db_movies (conn_db c)))) as [e He].
  { induction (db_movies (conn_db c)) as [|r rows IH]; [by apply elem_of_nil in Hin|].
    apply elem_of_cons in Hin as [<-|Hin]; simpl.
    - destruct Hfault as [e ->]. by exists e.
    - destruct (_transform_row r _); [|by eexists].
      destruct (IH Hin) as [e ->]. by exists e. }
  rewrite load_steps, Hc, Hopen, He. split; [by exists e|done].
Qed.

(** The [with] statement over [conn_context]: the connection is closed
    after a body that returns, and is left alone after a body that raises. *)
Lemma with_conn_context {B} db_path (body : nat → M B) w :
  with_contextmanager (conn_context db_path) body w
  = match body (length (conns w)) (sqlite3_connect db_path w).2 with
    | (Ok v, w2) => (Ok v, set_conns (alter closed (length (conns w)) (conns w2)) w2)
    | (Raise e, w2) => (Raise e, w2)
    end.
Proof.
  unfold with_contextmanager, conn_context, sqlite3_connect, conn_close. simpl.
  by destruct (body _ _) as [[v|e] w2].
Qed.

(** X17. After a run that ends normally the connection of the run is closed. *)
Lemma main_closes_on_success w v w' :
  main w = (Ok v, w') →
  conns w' = conns w ++ [{| conn_db := files w "db.sqlite"; conn_open := false |}].
Proof.
  unfold main. rewrite with_conn_context.
  destruct (load _ _ _ _) as [[v'|e] w2] eqn:Hload; [|done].
  intros [= _ <-]. simpl.
  pose proof (load_conns (length (conns w)) "http://127.0.0.1:9200" "movies"
                (sqlite3_connect "db.sqlite" w).2) as Hconns.
  rewrite Hload in Hconns. simpl in Hconns. rewrite Hconns.
  rewrite <- (Nat.add_0_r (length (conns w))). by rewrite alter_app_r.
Qed.

(** C1, as the code has it on the fault path. When a fault leaves the body
    of the run, the run ends with that fault and the connection it opened
    is still open: [conn.close()] stands after a [yield] that no
    [try ... finally] protects. *)
Theorem main_fault_leaves_connection_open w e w' :
  main w = (Raise e, w') →
  conns w' = conns w ++ [{| conn_db := files w "db.sqlite"; conn_open := true |}].
Proof.
  unfold main. rewrite with_conn_context.
  destruct (load _ _ _ _) as [[v'|e'] w2] eqn:Hload; [done|].
  intros [= _ <-].
  pose proof (load_conns (length (conns w)) "http://127.0.0.1:9200" "movies"
                (sqlite3_connect "db.sqlite" w).2) as Hconns.
  by rewrite Hload in Hconns.
Qed.

End Pipeline.

(** * The program on concrete data *)

(** The scenario of the specification: the row normalises to the document. *)
Example transform_row_scenario :
  _transform_row (H:=sample_lib) sample_row (writers_directory sample_writers)
  = Ok sample_document.
Proof. vm_compute. reflexivity. Qed.

(** The director boundary of the specification. *)
Example director_boundary :
  py_strip <$> py_split "," "Name1, Name2" = ["Name1"; "Name2"].
Proof. vm_compute. reflexivity. Qed.

(** A run that ends normally: the three documents are posted in one
    request, the refusal of the second is logged, the connection is closed. *)
Example main_sample_run :
  (main (H:=sample_lib) sample_world_refused).1 = Ok ()
  ∧ log (main (H:=sample_lib) sample_world_refused).2 = [sample_error]
  ∧ length (es_posted (main (H:=sample_lib) sample_world_refused).2) = 1
  ∧ conn_open <$> conns (main (H:=sample_lib) sample_world_refused).2 = [false].
Proof. vm_compute. done. Qed.

(** An item without an [index] object raises, and the refusal that follows
    it is not logged. *)
Example main_no_index_item :
  (main (H:=sample_lib) sample_world_no_index).1 = Raise KeyError
  ∧ log (main (H:=sample_lib) sample_world_no_index).2 = [].
Proof. vm_compute. done. Qed.

Lemma main_fault_leaves_connection_open_witness :
  main (H:=sample_lib) sample_world_missing_writer
  = (Raise KeyError,
     set_conns [{| conn_db := files sample_world_missing_writer "db.sqlite";
                   conn_open := true |}] sample_world_missing_writer)
  ∧ conns (set_conns [{| conn_db := files sample_world_missing_writer "db.sqlite";
                         conn_open := true |}] sample_world_missing_writer)
    = conns sample_world_missing_writer
      ++ [{| conn_db := files sample_world_missing_writer "db.sqlite"; conn_open := true |}].
Proof.
  assert (main (H:=sample_lib) sample_world_missing_writer
          = (Raise KeyError,
             set_conns [{| conn_db := files sample_world_missing_writer "db.sqlite";
                           conn_open := true |}] sample_world_missing_writer)) as Hrun
    by (vm_compute; reflexivity).
  split; [exact Hrun|].
  exact (main_fault_leaves_connection_open (H:=sample_lib) _ _ _ Hrun).
Defined.

Lemma transform_row_missing_writer_witness :
  json_loads (PyLib:=sample_lib) (row_writers sample_row_missing_writer)
    = Some (JArr [id_entry "w9"])
  ∧ is_fault (_transform_row (H:=sample_lib) sample_row_missing_writer
                (writers_directory sample_writers)).
Proof.
  assert (json_loads (PyLib:=sample_lib) (row_writers sample_row_missing_writer)
          = Some (JArr [id_entry "w9"])) as Hloads by (vm_compute; reflexivity).
  split; [exact Hloads|].
  apply (proj1 (transform_row_missing_writer (H:=sample_lib) sample_row_missing_writer
                  (writers_directory sample_writers) [id_entry "w9"] Hloads)
           (id_entry "w9") "w9").
  - apply list_elem_of_here.
  - reflexivity.
  - vm_compute. reflexivity.
Defined.

Lemma transform_row_writers_witness :
  ∃ movie_writers,
    writers_loop (writers_directory sample_writers)
      [id_entry "w1"; id_entry "w2"; id_entry "w1"; id_entry "w3"] [] ∅ = Ok movie_writers
    ∧ writer_id <$> movie_writers = ["w1"; "w3"]
    ∧ NoDup (writer_id <$> movie_writers).
Proof.
  destruct (transform_row_writers (H:=sample_lib) sample_row_writers sample_writers
              [id_entry "w1"; id_entry "w2"; id_entry "w1"; id_entry "w3"]
              ["w1"; "w2"; "w1"; "w3"])
    as (movie_writers & Hloop & _ & Hids & Hnodup & _).
  - vm_compute. reflexivity.
  - repeat constructor.
  - repeat constructor; vm_compute; eauto.
  - exists movie_writers. split_and!; [exact Hloop| |exact Hnodup].
    rewrite Hids. vm_compute. reflexivity.
Defined.

Lemma transform_row_actors_witness :
  _transform_row (H:=sample_lib) sample_row (writers_directory sample_writers) = Ok sample_document
  ∧ actor_name <$> doc_actors sample_document = doc_actors_names sample_document
  ∧ length (doc_actors sample_document) = length (doc_actors_names sample_document).
Proof.
  assert (_transform_row (H:=sample_lib) sample_row (writers_directory sample_writers)
          = Ok sample_document) as Hrun by (vm_compute; reflexivity).
  split; [exact Hrun|].
  pose proof (transform_row_actors (H:=sample_lib) sample_row
                (writers_directory sample_writers) sample_document Hrun) as Hact.
  simpl in Hact. destruct Hact as (_ & _ & _ & _ & Hlen).
  destruct Hlen as (Hnames & Hsame & _); [reflexivity|]. by split.
Defined.

Lemma transform_row_actors_uneven_witness :
  _transform_row (H:=sample_lib) sample_row_uneven_actors (writers_directory sample_writers)
    = Ok sample_document_uneven_actors
  ∧ length (doc_actors sample_document_uneven_actors)
    ≤ length (doc_actors_names sample_document_uneven_actors).
Proof.
  assert (_transform_row (H:=sample_lib) sample_row_uneven_actors
            (writers_directory sample_writers)
          = Ok sample_document_uneven_actors) as Hrun by (vm_compute; reflexivity).
  split; [exact Hrun|].
  apply (transform_row_actors_uneven (H:=sample_lib) sample_row_uneven_actors
           (writers_directory sample_writers) sample_document_uneven_actors
           "a1" "Bob,Ann,N/A"); [reflexivity|reflexivity|exact Hrun].
Defined.

Lemma transform_row_sentinels_witness :
  _transform_row (H:=sample_lib) sample_row_directors (writers_directory sample_writers)
    = Ok sample_document_directors
  ∧ doc_imdb_rating sample_document_directors = None
  ∧ doc_description sample_document_directors = None
  ∧ Some ["Jane Smith"; "Bob"]
    = Some (py_strip <$> py_split "," (row_director sample_row_directors))
  ∧ Forall2 (λ piece name,
               ∃ pre post, piece = pre +:+ name +:+ post
                           ∧ all_space pre = true ∧ all_space post = true)
      (py_split "," (row_director sample_row_directors)) ["Jane Smith"; "Bob"].
Proof.
  assert (_transform_row (H:=sample_lib) sample_row_directors
            (writers_directory sample_writers)
          = Ok sample_document_directors) as Hrun by (vm_compute; reflexivity).
  split; [exact Hrun|].
  destruct (transform_row_sentinels (H:=sample_lib) sample_row_directors
              (writers_directory sample_writers) sample_document_directors Hrun)
    as (Hrating & Hplot & _ & _ & _ & Hdirector & Hnames).
  split_and!; [by apply Hrating|by apply Hplot|by apply Hdirector|].
  by apply (Hnames ["Jane Smith"; "Bob"]).
Defined.

Lemma transform_row_rating_witness :
  (row_imdb_rating sample_row_bad_rating ≠ NA
   ∧ is_fault (_transform_row (H:=sample_lib) sample_row_bad_rating
                 (writers_directory sample_writers)))
  ∧ (row_imdb_rating sample_row ≠ NA
     ∧ ∃ doc, _transform_row (H:=sample_lib) sample_row (writers_directory sample_writers)
              = Ok doc
              ∧ doc_imdb_rating doc = Some 7.5%float).
Proof.
  assert (row_imdb_rating sample_row_bad_rating ≠ NA) as Hbad by done.
  assert (row_imdb_rating sample_row ≠ NA) as Hgood by done.
  split; (split; [done|]).
  - exact (proj1 (transform_row_rating (H:=sample_lib) sample_row_bad_rating
                    (writers_directory sample_writers) Hbad)).
  - pose proof (transform_row_rating (H:=sample_lib) sample_row
                  (writers_directory sample_writers) Hgood) as Hnum.
    assert (py_float (PyLib:=sample_lib) (row_imdb_rating sample_row) = Some 7.5%float)
      as Hfloat by reflexivity.
    rewrite Hfloat in Hnum. destruct Hnum as [_ Hreturns].
    destruct (Hreturns [id_entry "w1"] [{| writer_id := "w1"; writer_name := "Jane Doe" |}])
      as (doc & Hdoc & _ & Hrating).
    + exists (JArr [id_entry "w1"]). split; [vm_compute; reflexivity|reflexivity].
    + vm_compute. reflexivity.
    + by exists doc.
Defined.

(** C7, the claim as written fails: a tab after the comma is white space,
    and the code leaves it in the genre. *)
Lemma genre_tab_not_stripped :
  _transform_row (H:=sample_lib) sample_row_tab_genre (writers_directory sample_writers)
    = Ok sample_document_tab_genre
  ∧ doc_genre sample_document_tab_genre = ["Action"; String TAB "Drama"]
  ∧ genre_by_spec (row_genre sample_row_tab_genre) = ["Action"; "Drama"]
  ∧ doc_genre sample_document_tab_genre ≠ genre_by_spec (row_genre sample_row_tab_genre).
Proof. split_and!; [vm_compute; reflexivity|reflexivity|vm_compute; reflexivity|done]. Qed.

Lemma transform_row_genre_witness :
  _transform_row (H:=sample_lib) sample_row (writers_directory sample_writers) = Ok sample_document
  ∧ py_join "," (doc_genre sample_document) = "Action,Drama".
Proof.
  assert (_transform_row (H:=sample_lib) sample_row (writers_directory sample_writers)
          = Ok sample_document) as Hrun by (vm_compute; reflexivity).
  split; [exact Hrun|].
  destruct (transform_row_genre (H:=sample_lib) sample_row
              (writers_directory sample_writers) sample_document Hrun) as (_ & Hjoin & _).
  rewrite Hjoin. reflexivity.
Defined.

Lemma bulk_body_pairs_witness :
  py_split LF (str_query (bulk_lines (H:=sample_lib) "movies" [sample_document]))
  = bulk_lines (H:=sample_lib) "movies" [sample_document] ++ [EmptyString].
Proof.
  apply (bulk_body_pairs (H:=sample_lib) [sample_document] "movies").
  - done.
  - repeat constructor.
Defined.

(** C9, the claim as written fails: an error that is the empty string is
    not null, and the code does not log it. *)
Lemma empty_error_not_logged :
  json_loads (PyLib:=sample_lib) sample_response_empty_error
    = Some (JObj [("items", JArr [response_item (JStr "")])])
  ∧ item_error (response_item (JStr "")) = Some (JStr "")
  ∧ JStr "" ≠ JNull
  ∧ (load_to_es (H:=sample_lib) "http://127.0.0.1:9200" [doc_json sample_document] "movies"
       sample_world_empty_error).1 = Ok ()
  ∧ log (load_to_es (H:=sample_lib) "http://127.0.0.1:9200" [doc_json sample_document] "movies"
           sample_world_empty_error).2 = [].
Proof. split_and!; try done; vm_compute; reflexivity. Qed.

Lemma load_to_es_logs_errors_witness :
  (load_to_es (H:=sample_lib) "http://127.0.0.1:9200"
     (doc_json <$> [sample_document; sample_document_writers; sample_document_tab_genre])
     "movies" sample_world_refused).1 = Ok ()
  ∧ log (load_to_es (H:=sample_lib) "http://127.0.0.1:9200"
           (doc_json <$> [sample_document; sample_document_writers; sample_document_tab_genre])
           "movies" sample_world_refused).2
    = [sample_error].
Proof.
  destruct (load_to_es_logs_errors (H:=sample_lib) "http://127.0.0.1:9200"
              [sample_document; sample_document_writers; sample_document_tab_genre]
              "movies" sample_world_refused sample_response
              (JObj [("items", JArr [response_ok_item; response_item sample_error;
                                      response_ok_item])])
              [response_ok_item; response_item sample_error; response_ok_item])
    as (Hok & Hlog & _).
  - reflexivity.
  - vm_compute. reflexivity.
  - reflexivity.
  - repeat constructor; vm_compute; eauto.
  - split; [exact Hok|]. rewrite Hlog. vm_compute. reflexivity.
Defined.

(** * Further properties of the code *)

(** ** [dict_factory] *)

Section DictFactory.
Context {V : Type}.
Implicit Types (d : list (string * V)) (k col : string) (v : V).
Implicit Types (description : list string) (row : list V).

Lemma assoc_setitem k k' v d :
  assoc k' (dict_setitem k v d) = if decide (k = k') then Some v else assoc k' d.
Proof.
  induction d as [|[k0 v0] d IH]; simpl.
  - by destruct (decide (k = k')).
  - destruct (decide (k0 = k)) as [->|Hne]; simpl.
    + by destruct (decide (k = k')).
    + rewrite IH. destruct (decide (k0 = k')) as [->|?]; [|done].
      by rewrite decide_False by done.
Qed.

Lemma setitem_fresh k v d : k ∉ d.*1 → dict_setitem k v d = d ++ [(k, v)].
Proof.
  induction d as [|[k0 v0] d IH]; [done|].
  cbn [dict_setitem]. rewrite fmap_cons, not_elem_of_cons. intros [Hne Hd].
  rewrite decide_False by done. by rewrite IH.
Qed.

Lemma setitem_keys_old k v d : k ∈ d.*1 → (dict_setitem k v d).*1 = d.*1.
Proof.
  induction d as [|[k0 v0] d IH]; [by intros ?%elem_of_nil|].
  cbn [dict_setitem]. rewrite fmap_cons, elem_of_cons.
  destruct (decide (k0 = k)) as [->|Hne]; [done|].
  intros [?|Hd]; [done|]. by rewrite !fmap_cons, IH.
Qed.

(** The loop ends without fault exactly when the row reaches to the last
    column read, and then it has set the columns in order. *)
Lemma dict_factory_loop_Some description row idx d :
  idx + length description ≤ length row →
  dict_factory_loop description row idx d
  = Some (foldl (λ d' p, dict_setitem p.1 p.2 d') d (zip description (drop idx row))).
Proof.
  revert idx d. induction description as [|col description IH]; intros idx d Hlen; [done|].
  simpl in *. destruct (lookup_lt_is_Some_2 row idx) as [v Hv]; [lia|].
  rewrite Hv, IH by lia. by rewrite (drop_S _ _ _ Hv).
Qed.

Lemma dict_factory_loop_None description row idx d :
  idx ≤ length row →
  length row < idx + length description →
  dict_factory_loop description row idx d = None.
Proof.
  revert idx d. induction description as [|col description IH]; intros idx d Hidx Hlen;
    simpl in *; [lia|].
  destruct (row !! idx) as [v|] eqn:Hv; [|done].
  apply lookup_lt_Some in Hv. apply IH; lia.
Qed.

Lemma foldl_setitem_assoc (ps : list (string * V)) d k :
  assoc k (foldl (λ d' p, dict_setitem p.1 p.2 d') d ps)
  = from_option Some (assoc k d) (assoc k (reverse ps)).
Proof.
  revert d. induction ps as [|[k0 v0] ps IH]; intros d; simpl; [done|].
  rewrite IH, assoc_setitem, reverse_cons. simpl.
  assert (∀ l : list (string * V),
            assoc k (l ++ [(k0, v0)])
            = from_option Some (if decide (k0 = k) then Some v0 else None) (assoc k l)) as Happ.
  { induction l as [|[k1 v1] l IHl]; simpl; [done|]. by destruct (decide (k1 = k)). }
  rewrite Happ. destruct (assoc k (reverse ps)); [done|]. simpl.
  by destruct (decide (k0 = k)).
Qed.

Lemma foldl_setitem_keys (ps : list (string * V)) d :
  (foldl (λ d' p, dict_setitem p.1 p.2 d') d ps).*1
  = d.*1 ++ filter (λ k, k ∉ d.*1) (first_occurrences ps.*1).
Proof.
  revert d. induction ps as [|[k0 v0] ps IH]; intros d; simpl.
  - by rewrite app_nil_r.
  - rewrite IH. destruct (decide (k0 ∈ d.*1)) as [Hin|Hnew].
    + rewrite setitem_keys_old by done. f_equal.
      rewrite filter_cons_False by (intros ?; done).
      by rewrite list_filter_filter_l by (intros x ? ->; done).
    + rewrite setitem_fresh, fmap_app by done. simpl.
      rewrite filter_cons_True by done. rewrite <- app_assoc. simpl. do 2 f_equal.
      rewrite list_filter_filter. apply list_filter_iff. intros x.
      rewrite not_elem_of_app, list_elem_of_singleton. intuition.
Qed.

Lemma foldl_setitem_distinct (ps : list (string * V)) d :
  NoDup (d.*1 ++ ps.*1) →
  foldl (λ d' p, dict_setitem p.1 p.2 d') d ps = d ++ ps.
Proof.
  revert d. induction ps as [|[k0 v0] ps IH]; intros d Hnd; simpl.
  - by rewrite app_nil_r.
  - simpl in Hnd. assert (k0 ∉ d.*1) as Hnew.
    { apply NoDup_app in Hnd as (_ & Hdisj & _). intros Hin.
      apply (Hdisj k0 Hin). apply list_elem_of_here. }
    rewrite IH.
    + rewrite setitem_fresh by done. by rewrite <- app_assoc.
    + rewrite setitem_fresh, fmap_app by done. simpl.
      rewrite <- app_assoc. done.
Qed.

Lemma dict_factory_Some_length description row d :
  dict_factory description row = Some d → length description ≤ length row.
Proof.
  intros Hd. destruct (decide (length description ≤ length row)) as [|Hlt]; [done|].
  unfold dict_factory in Hd. rewrite dict_factory_loop_None in Hd; [done|lia|lia].
Qed.

Lemma dict_factory_foldl description row :
  length description ≤ length row →
  dict_factory description row
  = Some (foldl (λ d' p, dict_setitem p.1 p.2 d') [] (zip description row)).
Proof. intros Hlen. unfold dict_factory. by rewrite dict_factory_loop_Some. Qed.

(** X1. In the dict [dict_factory] returns, a column name is bound to the
    value at the last position where the description has that name: the
    lookup is the lookup in the (name, value) pairs read from the end. *)
Theorem dict_factory_last_wins description row d k :
  dict_factory description row = Some d →
  assoc k d = assoc k (reverse (zip description row)).
Proof.
  intros Hd. pose proof (dict_factory_Some_length _ _ _ Hd) as Hlen.
  rewrite dict_factory_foldl in Hd by done. injection Hd as <-.
  rewrite foldl_setitem_assoc. simpl. by destruct (assoc k (reverse (zip description row))).
Qed.

(** X2. With column names that are all different and a row that has a
    value for each, [dict_factory] returns the names paired with the values
    of the same position, in the order of the columns; values of the row
    beyond the last column are left out. *)
Theorem dict_factory_distinct description row :
  NoDup description →
  length description ≤ length row →
  dict_factory description row = Some (zip description row)
  ∧ (zip description row).*1 = description
  ∧ (zip description row).*2 = take (length description) row.
Proof.
  intros Hnd Hlen. rewrite dict_factory_foldl by done.
  assert ((zip description row).*1 = description) as Hfst by (by apply fst_zip).
  split_and!; [|done|].
  - rewrite foldl_setitem_distinct; [done|]. simpl. by rewrite Hfst.
  - clear. revert row. induction description as [|col description IH]; intros [|v row];
      try done. simpl. by rewrite IH.
Qed.

(** X3. [dict_factory] raises [IndexError] exactly when the row has fewer
    values than the description has columns. *)
Theorem dict_factory_index_error description row :
  dict_factory description row = None ↔ length row < length description.
Proof.
  split.
  - intros Hnone. destruct (decide (length description ≤ length row)) as [Hle|]; [|lia].
    by rewrite dict_factory_foldl in Hnone.
  - intros Hlt. unfold dict_factory. apply dict_factory_loop_None; lia.
Qed.

(** X4. The keys of the dict [dict_factory] returns are the column names,
    each once, in the order of their first occurrence in the description. *)
Theorem dict_factory_keys description row d :
  dict_factory description row = Some d →
  d.*1 = first_occurrences description
  ∧ NoDup d.*1
  ∧ length d ≤ length description.
Proof.
  intros Hd. pose proof (dict_factory_Some_length _ _ _ Hd) as Hlen.
  rewrite dict_factory_foldl in Hd by done. injection Hd as <-.
  assert ((foldl (λ d' p, dict_setitem p.1 p.2 d') [] (zip description row)).*1
          = first_occurrences description) as Hkeys.
  { rewrite foldl_setitem_keys, fst_zip by done. simpl.
    induction (first_occurrences description) as [|k ks IH]; [done|].
    rewrite filter_cons_True by apply not_elem_of_nil. by rewrite IH. }
  split_and!; [done| |].
  - rewrite Hkeys. apply first_occurrences_NoDup.
  - rewrite <- (length_fmap fst), Hkeys.
    apply sublist_length, first_occurrences_sublist.
Qed.

End DictFactory.

Lemma dict_factory_last_wins_witness :
  dict_factory ["id"; "name"; "id"] [JStr "m1"; JStr "Jane"; JStr "w1"]
    = Some [("id", JStr "w1"); ("name", JStr "Jane")]
  ∧ assoc "id" [("id", JStr "w1"); ("name", JStr "Jane")] = Some (JStr "w1").
Proof.
  assert (dict_factory ["id"; "name"; "id"] [JStr "m1"; JStr "Jane"; JStr "w1"]
          = Some [("id", JStr "w1"); ("name", JStr "Jane")]) as Hrun by reflexivity.
  split; [exact Hrun|].
  rewrite (dict_factory_last_wins _ _ _ "id" Hrun). reflexivity.
Defined.

Lemma dict_factory_distinct_witness :
  dict_factory ["id"; "name"] [JStr "w1"; JStr "Jane Doe"; JNull]
  = Some [("id", JStr "w1"); ("name", JStr "Jane Doe")].
Proof.
  apply (dict_factory_distinct ["id"; "name"] [JStr "w1"; JStr "Jane Doe"; JNull]).
  - apply NoDup_cons. split; [by intros [=]%list_elem_of_singleton|].
    apply NoDup_singleton.
  - simpl. lia.
Defined.

Lemma dict_factory_keys_witness :
  dict_factory ["id"; "name"; "id"] [JStr "m1"; JStr "Jane"; JStr "w1"]
    = Some [("id", JStr "w1"); ("name", JStr "Jane")]
  ∧ [("id", JStr "w1"); ("name", JStr "Jane")].*1 = ["id"; "name"].
Proof.
  assert (dict_factory ["id"; "name"; "id"] [JStr "m1"; JStr "Jane"; JStr "w1"]
          = Some [("id", JStr "w1"); ("name", JStr "Jane")]) as Hrun by reflexivity.
  split; [exact Hrun|].
  rewrite (proj1 (dict_factory_keys _ _ _ Hrun)). reflexivity.
Defined.

(** ** More on the row normaliser *)

Section NormaliserMore.
Context `{PyLib}.
Implicit Types (row : SourceRow) (writers : gmap string Writer) (doc : Document).
Implicit Types (entries : list json) (k : string).

Lemma py_split_length c s : length (py_split c s) = S (count_char c s).
Proof.
  induction s as [|a s IH]; simpl; [done|].
  pose proof (py_split_not_nil c s) as Hne.
  case_decide; simpl; [by rewrite IH|].
  destruct (py_split c s); [done|]. simpl in *. lia.
Qed.

Lemma count_char_remove c c' s : c ≠ c' → count_char c (py_remove c' s) = count_char c s.
Proof.
  intros Hne. induction s as [|a s IH]; simpl; [done|].
  destruct (decide (a = c')) as [->|?]; simpl.
  - by rewrite decide_False by (intros ?; done).
  - by rewrite IH.
Qed.

Lemma py_iter_fault parsed e : py_iter parsed = Raise e → e = TypeError.
Proof. destruct parsed; simpl; congruence. Qed.

Lemma py_getitem_fault j k e : py_getitem j k = Raise e → e = KeyError ∨ e = TypeError.
Proof.
  destruct j as [| | | | | |kv]; simpl; try (intros [= <-]; by right).
  destruct (assoc k kv); intros [= <-]. by left.
Qed.

Lemma lookup_writer_fault writers wid e :
  lookup_writer writers wid = Raise e → e = KeyError ∨ e = TypeError.
Proof.
  destruct wid as [| | | |k| |]; simpl; try (intros [= <-]; by (left + right)).
  destruct (writers !! k); intros [= <-]. by left.
Qed.

Lemma lookup_writer_Ok writers wid k w :
  lookup_writer writers wid = Ok (k, w) → wid = JStr k ∧ writers !! k = Some w.
Proof.
  destruct wid as [| | | |k'| |]; simpl; try done.
  destruct (writers !! k') eqn:Hk; [|done]. by intros [= <- <-].
Qed.

(** The writers loop raises nothing but [KeyError] and [TypeError]. *)
Lemma writers_loop_fault writers entries movie_writers writers_set e :
  writers_loop writers entries movie_writers writers_set = Raise e →
  e = KeyError ∨ e = TypeError.
Proof.
  revert movie_writers writers_set.
  induction entries as [|writer entries IH]; intros mw seen; simpl; [done|].
  destruct (py_getitem writer "id") as [wid|e'] eqn:Hid; cbn [mbind result_bind].
  - destruct (lookup_writer writers wid) as [[k w]|e'] eqn:Hw; cbn [mbind result_bind].
    + case_decide; apply IH.
    + intros [= <-]. by apply lookup_writer_fault in Hw.
  - intros [= <-]. by apply py_getitem_fault in Hid.
Qed.

(** What the writers loop keeps, whatever the entries are: it only adds,
    each record added is the record of a key of the directory, no key is
    added twice or again, and no sentinel name comes in. *)
Lemma writers_loop_invariant writers entries movie_writers writers_set res :
  writers_loop writers entries movie_writers writers_set = Ok res →
  ∃ added ks,
    res = movie_writers ++ added
    ∧ Forall2 (λ w k, writers !! k = Some w) added ks
    ∧ NoDup ks
    ∧ (∀ k, k ∈ ks → k ∉ writers_set)
    ∧ Forall (λ w, writer_name w ≠ NA) added
    ∧ length added ≤ length entries.
Proof.
  revert movie_writers writers_set.
  induction entries as [|writer entries IH]; intros mw seen; simpl.
  - intros [= <-]. exists [], []. rewrite app_nil_r.
    split_and!; [done|constructor|constructor|by intros k ?%elem_of_nil|constructor|done].
  - destruct (py_getitem writer "id") as [wid|e']; cbn [mbind result_bind]; [|done].
    destruct (lookup_writer writers wid) as [[k w]|e'] eqn:Hw; cbn [mbind result_bind]; [|done].
    apply lookup_writer_Ok in Hw as [-> Hw].
    case_decide as Hkeep; intros Hloop.
    + destruct Hkeep as [Hname Hnew].
      destruct (IH _ _ Hloop) as (added & ks & -> & Hres & Hnd & Hseen & Hnames & Hlen).
      exists (w :: added), (k :: ks). split_and!.
      * by rewrite <- app_assoc.
      * by constructor.
      * apply NoDup_cons. split; [|done]. intros Hin.
        apply Hseen in Hin. apply Hin. apply elem_of_union_r. by apply elem_of_singleton.
      * intros k' [->|Hin]%elem_of_cons; [done|].
        apply Hseen in Hin. intros Hk'. apply Hin. by apply elem_of_union_l.
      * by constructor.
      * simpl. lia.
    + destruct (IH _ _ Hloop) as (added & ks & -> & Hres & Hnd & Hseen & Hnames & Hlen).
      exists added, ks. split_and!; try done. lia.
Qed.

(** X5. A document that [_transform_row] returns, whatever the row: its
    writers are records the directory holds, under keys that are all
    different, none has the sentinel as its name, and [writers_names] are
    their names in the same order, so the sentinel is not among them. *)
Theorem transform_row_writers_from_directory row writers doc :
  _transform_row row writers = Ok doc →
  ∃ ks,
    NoDup ks
    ∧ Forall2 (λ w k, writers !! k = Some w) (doc_writers doc) ks
    ∧ Forall (λ w, writer_name w ≠ NA) (doc_writers doc)
    ∧ doc_writers_names doc = writer_name <$> doc_writers doc
    ∧ Forall (λ n, n ≠ NA) (doc_writers_names doc).
Proof.
  intros Hdoc.
  assert (∃ entries, writers_loop writers entries [] ∅ = Ok (doc_writers doc)
                     ∧ doc_writers_names doc = writer_name <$> doc_writers doc)
    as (entries & Hloop & Hnames).
  { transform_row_inv Hdoc; by eexists. }
  apply writers_loop_invariant in Hloop
    as (added & ks & Hadded & Hres & Hnd & _ & Hna & _).
  rewrite app_nil_l in Hadded. subst added. exists ks.
  split_and!; try done. rewrite Hnames. by apply Forall_fmap.
Qed.

(** X6. A fault of the writers comes first. When the writers column
    parses and iterating the parsed value or the loop over its entries
    raises, [_transform_row] raises that very fault, a [KeyError] or a
    [TypeError], whatever the rating and the other columns are: the rating
    is not looked at, so a rating that is no number does not turn the
    fault into a [ValueError]. *)
Theorem transform_row_writers_fault_first row writers parsed e :
  json_loads (row_writers row) = Some parsed →
  (py_iter parsed ≫= λ entries, writers_loop writers entries [] ∅) = Raise e →
  _transform_row row writers = Raise e ∧ (e = KeyError ∨ e = TypeError).
Proof.
  intros Hloads Hfault. split.
  - unfold _transform_row. rewrite Hloads. cbn [from_option mbind result_bind].
    destruct (py_iter parsed) as [entries|e']; cbn [mbind result_bind] in *.
    + by rewrite Hfault.
    + by injection Hfault as ->.
  - destruct (py_iter parsed) as [entries|e'] eqn:Hiter; cbn [mbind result_bind] in Hfault.
    + by apply writers_loop_fault in Hfault.
    + injection Hfault as <-. right. by apply py_iter_fault in Hiter.
Qed.

(** X7. A writers column that parses to something other than an array:
    the empty object and the empty string give a document without writers,
    every other value (a number, a boolean, null, a non-empty object or
    string) makes [_transform_row] raise [TypeError]. *)
Theorem transform_row_writers_not_array row writers parsed :
  json_loads (row_writers row) = Some parsed →
  (∀ entries, parsed ≠ JArr entries) →
  match parsed with
  | JObj [] | JStr EmptyString =>
      (∀ doc, _transform_row row writers = Ok doc →
              doc_writers doc = [] ∧ doc_writers_names doc = [])
      ∧ (row_imdb_rating row = NA ∨ is_Some (py_float (row_imdb_rating row)) →
         ∃ doc, _transform_row row writers = Ok doc)
  | _ => _transform_row row writers = Raise TypeError
  end.
Proof.
  intros Hloads Hshape.
  assert (∀ entries, py_iter parsed = Ok entries →
            writers_loop writers entries [] ∅ = Ok [] →
            (∀ doc, _transform_row row writers = Ok doc →
                    doc_writers doc = [] ∧ doc_writers_names doc = [])
            ∧ (row_imdb_rating row = NA ∨ is_Some (py_float (row_imdb_rating row)) →
               ∃ doc, _transform_row row writers = Ok doc)) as Hempty.
  { intros entries Hiter Hloop. split.
    - intros doc Hdoc. unfold _transform_row in Hdoc. rewrite Hloads in Hdoc.
      cbn [from_option mbind result_bind] in Hdoc. rewrite Hiter in Hdoc.
      cbn [mbind result_bind] in Hdoc. rewrite Hloop in Hdoc.
      cbn [mbind result_bind] in Hdoc.
      destruct (row_actors_ids row), (row_actors_names row);
        (destruct (decide (row_imdb_rating row ≠ NA));
         [destruct (py_float (row_imdb_rating row)); [|discriminate Hdoc]|]);
        cbn [from_option fmap result_fmap mbind result_bind] in Hdoc;
        by injection Hdoc as <-.
    - intros Hrating.
      destruct (transform_row_returns row writers entries []) as (doc & Hdoc & _);
        [by exists parsed|done|done|by exists doc]. }
  assert (∀ e, (py_iter parsed ≫= λ entries, writers_loop writers entries [] ∅) = Raise e →
               _transform_row row writers = Raise e) as Hfault.
  { intros e He. unfold _transform_row. rewrite Hloads.
    cbn [from_option mbind result_bind].
    destruct (py_iter parsed) as [entries|e']; cbn [mbind result_bind] in *.
    - by rewrite He.
    - by injection He as ->. }
  destruct parsed as [| | | |s|l|kv]; try (by apply Hfault).
  - destruct s as [|a s]; [by apply (Hempty [])|]. by apply Hfault.
  - by destruct (Hshape l).
  - destruct kv as [|[k v] kv]; [by apply (Hempty [])|]. by apply Hfault.
Qed.

(** X8. The lists of a document have one entry for each comma-separated
    field: [genre] has one more entry than the genre string has commas, so
    it is never empty and an empty genre string gives one empty genre; a
    director string that is not the sentinel gives one more name than it
    has commas. *)
Theorem transform_row_field_counts row writers doc :
  _transform_row row writers = Ok doc →
  length (doc_genre doc) = S (count_char "," (row_genre row))
  ∧ (row_director row ≠ NA →
     ∃ names, doc_director doc = Some names
              ∧ length names = S (count_char "," (row_director row))).
Proof.
  intros Hdoc.
  assert (doc_genre doc = py_split "," (py_remove " " (row_genre row))
          ∧ doc_director doc
            = if decide (row_director row ≠ NA)
              then Some (py_strip <$> py_split "," (row_director row)) else None)
    as [-> ->] by (transform_row_inv Hdoc; done).
  split.
  - by rewrite py_split_length, count_char_remove.
  - intros Hdir. rewrite decide_True by done. eexists. split; [done|].
    by rewrite length_fmap, py_split_length.
Qed.

End NormaliserMore.

(** ** More on the bulk client and the run *)

Section PipelineMore.
Context `{PyLib}.
Implicit Types (w : world) (conn : nat) (items rows records : list json).

Lemma for_each_Ok {A B} (f : A → result B) (l : list A) (ys : list B) :
  for_each f l = Ok ys ↔ Forall2 (λ x y, f x = Ok y) l ys.
Proof.
  revert ys. induction l as [|x l IH]; intros ys; simpl.
  - split; [intros [= <-]; constructor|by intros ->%Forall2_nil_inv_l].
  - split.
    + destruct (f x) as [y|] eqn:Hx; cbn [mbind result_bind]; [|done].
      destruct (for_each f l) as [ys'|] eqn:Hl; cbn [mbind result_bind]; [|done].
      intros [= <-]. constructor; [done|]. by apply IH.
    + intros (y & ys' & Hx & Hl & ->)%Forall2_cons_inv_l.
      rewrite Hx. cbn [mbind result_bind]. apply IH in Hl. by rewrite Hl.
Qed.

Lemma transform_rows_ids (movies : list SourceRow) (docs : list Document) writers :
  Forall2 (λ row doc, _transform_row row writers = Ok doc) movies docs →
  doc_id <$> docs = row_id <$> movies ∧ doc_title <$> docs = row_title <$> movies.
Proof.
  induction 1 as [|row doc movies docs Hdoc _ [IHid IHtitle]]; [done|].
  rewrite !fmap_cons, IHid, IHtitle.
  assert (doc_id doc = row_id row ∧ doc_title doc = row_title row) as [-> ->]
    by (transform_row_inv Hdoc; done).
  done.
Qed.

Lemma bulk_query_loop_fault good bad rest index_name prepared_query e :
  Forall (λ row, ∃ v, py_getitem row "id" = Ok v) good →
  py_getitem bad "id" = Raise e →
  bulk_query_loop (good ++ bad :: rest) index_name prepared_query = Raise e.
Proof.
  intros Hgood Hbad. revert prepared_query.
  induction Hgood as [|row good [v Hv] _ IH]; intros acc; simpl.
  - by rewrite Hbad.
  - rewrite Hv. cbn [mbind result_bind]. apply IH.
Qed.

(** The loop over the items adds to the end of the log and changes
    nothing else. *)
Lemma report_errors_log_prefix items w :
  log w `prefix_of` log (report_errors items w).2.
Proof.
  revert w. induction items as [|item items IH]; intros w; [done|].
  simpl. unfold mbind, M_bind, lift, mret, M_ret, logger_error.
  destruct (py_getitem item "index") as [index|e]; [|done].
  destruct (py_get index "error") as [error_message|e]; [|done].
  destruct (py_truthy error_message); [|apply IH].
  etrans; [|apply IH]. simpl. by apply prefix_app_r.
Qed.

(** [load_to_es] on any records, step by step. *)
Lemma load_to_es_steps url records index_name w :
  load_to_es url records index_name w
  = match _get_es_bulk_query records index_name with
    | Raise e => (Raise e, w)
    | Ok lines =>
        let w1 := set_es_posted (es_posted w ++ [(urljoin url "_bulk", str_query lines)]) w in
        match es_server w (urljoin url "_bulk") (str_query lines) with
        | Raise e => (Raise e, w1)
        | Ok response =>
            match json_loads response with
            | None => (Raise JSONDecodeError, w1)
            | Some json_response =>
                match py_getitem json_response "items" ≫= py_iter with
                | Raise e => (Raise e, w1)
                | Ok items => report_errors items w1
                end
            end
        end
    end.
Proof.
  unfold load_to_es. unfold mbind at 1 2 3 4, M_bind, lift, requests_post.
  destruct (_get_es_bulk_query records index_name) as [lines|e]; [|done]. simpl.
  destruct (es_server w _ _) as [response|e]; [|done].
  destruct (json_loads response) as [json_response|]; [|done]. simpl.
  by destruct (py_getitem json_response "items" ≫= py_iter).
Qed.

(** What [load_to_es] does to the world, for any records: the connections
    stay, at most one request is added to the requests, and the log only
    grows at its end. *)
Lemma load_to_es_world url records index_name w :
  conns (load_to_es url records index_name w).2 = conns w
  ∧ es_posted w `prefix_of` es_posted (load_to_es url records index_name w).2
  ∧ length (es_posted (load_to_es url records index_name w).2) ≤ S (length (es_posted w))
  ∧ log w `prefix_of` log (load_to_es url records index_name w).2.
Proof.
  rewrite load_to_es_steps.
  destruct (_get_es_bulk_query records index_name) as [lines|e]; simpl;
    [|split_and!; [done|done|lia|done]].
  assert (es_posted w `prefix_of` es_posted w ++ [(urljoin url "_bulk", str_query lines)])
    as Hpre by (by apply prefix_app_r).
  assert (length (es_posted w ++ [(urljoin url "_bulk", str_query lines)])
          ≤ S (length (es_posted w))) as Hlen by (rewrite length_app; simpl; lia).
  destruct (es_server w _ _) as [response|e]; simpl; [|by split_and!].
  destruct (json_loads response) as [json_response|]; simpl; [|by split_and!].
  destruct (py_getitem json_response "items" ≫= py_iter) as [items|e]; simpl; [|by split_and!].
  rewrite (proj1 (report_errors_frame _ _)), (proj2 (report_errors_frame _ _)).
  split_and!; [done|done|done|]. apply (report_errors_log_prefix items (set_es_posted _ w)).
Qed.

Lemma report_errors_broken good bad rest w :
  Forall (λ item, is_Some (item_error item)) good →
  item_error bad = None →
  is_fault (report_errors (good ++ bad :: rest) w).1
  ∧ log (report_errors (good ++ bad :: rest) w).2
    = log w ++ filter (λ e, py_truthy e = true) (omap item_error good).
Proof.
  intros Hgood Hbad. revert w.
  induction Hgood as [|item good [e He] _ IH]; intros w.
  - simpl. rewrite app_nil_r. unfold item_error in Hbad.
    unfold mbind, M_bind, lift.
    destruct (py_getitem bad "index") as [[| | | | | |kv]|e]; simpl; try done;
      split; try done; by eexists.
  - simpl. rewrite He. unfold item_error in He.
    unfold mbind at 1 2 3 4 5 6, M_bind, lift, mret, M_ret, logger_error.
    destruct (py_getitem item "index") as [[| | | | | |kv]|]; try done.
    injection He as <-. simpl.
    destruct (py_truthy (default JNull (assoc "error" kv))) eqn:Htruthy.
    + rewrite filter_cons_True by done.
      destruct (IH (set_log (log w ++ [default JNull (assoc "error" kv)]) w)) as [Hf ->].
      split; [done|]. simpl. by rewrite <- app_assoc.
    + rewrite filter_cons_False by (by rewrite Htruthy). apply IH.
Qed.

(** X9. [load_writers_names] returns without changing anything, and only
    on an open connection. The directory it returns binds an id to the last
    row of the writers table with that id, and to nothing when the table
    has no such row; so every record is filed under its own id and is a row
    of the table. *)
Theorem load_writers_names_last_row conn w writers w' :
  load_writers_names conn w = (Ok writers, w') →
  w' = w
  ∧ ∃ c, conns w !! conn = Some c ∧ conn_open c = true
         ∧ (∀ k, writers !! k = last (filter (λ r, writer_id r = k) (db_writers (conn_db c))))
         ∧ (∀ k r, writers !! k = Some r →
                   writer_id r = k ∧ r ∈ db_writers (conn_db c)).
Proof.
  unfold load_writers_names, mbind, M_bind, conn_execute, mret, M_ret.
  destruct (conns w !! conn) as [c|]; [|done].
  destruct (conn_open c) eqn:Hopen; [|done].
  intros [= <- <-]. split; [done|]. exists c. split_and!; [done|done| |].
  - intros k. apply writers_directory_last.
  - intros k r Hk. split; [by apply (writers_directory_keyed _ _ _ Hk)|].
    rewrite writers_directory_last in Hk. apply last_Some in Hk as [l' Hl'].
    assert (r ∈ filter (λ r0, writer_id r0 = k) (db_writers (conn_db c))) as Hin.
    { rewrite Hl'. apply elem_of_app. right. apply list_elem_of_here. }
    by apply list_elem_of_filter in Hin as [_ Hin].
Qed.

(** X10. When a record has no [id] (a dict without the key raises
    [KeyError], a value that is no dict [TypeError]) and the records before
    it have one, [_get_es_bulk_query] raises that fault, no lines are
    returned, and [load_to_es] raises it before anything is posted or
    logged. *)
Theorem bulk_query_missing_id good bad rest index_name e :
  Forall (λ row, ∃ v, py_getitem row "id" = Ok v) good →
  py_getitem bad "id" = Raise e →
  _get_es_bulk_query (good ++ bad :: rest) index_name = Raise e
  ∧ (∀ url w, load_to_es url (good ++ bad :: rest) index_name w = (Raise e, w))
  ∧ (e = KeyError ∨ e = TypeError).
Proof.
  intros Hgood Hbad.
  assert (_get_es_bulk_query (good ++ bad :: rest) index_name = Raise e) as Hq
    by (by apply bulk_query_loop_fault).
  split_and!; [done| |by apply py_getitem_fault in Hbad].
  intros url w. by rewrite load_to_es_steps, Hq.
Qed.

(** X11. A fault after the request was sent: a fault of the transport is
    raised as it is, an answer that is not JSON raises [JSONDecodeError],
    an answer without an iterable [items] raises the fault of that access.
    In each case the request counts as posted and nothing is logged. *)
Theorem load_to_es_fault_after_post url docs index_name w e :
  match es_server w (urljoin url "_bulk") (str_query (bulk_lines index_name docs)) with
  | Raise e' => e = e'
  | Ok response =>
      match json_loads response with
      | None => e = JSONDecodeError
      | Some json_response => (py_getitem json_response "items" ≫= py_iter) = Raise e
      end
  end →
  load_to_es url (doc_json <$> docs) index_name w
  = (Raise e,
     set_es_posted
       (es_posted w ++ [(urljoin url "_bulk", str_query (bulk_lines index_name docs))]) w).
Proof.
  rewrite load_to_es_docs. simpl.
  destruct (es_server w _ _) as [response|e']; [|by intros ->].
  destruct (json_loads response) as [json_response|]; [|by intros ->].
  by intros ->.
Qed.

(** X12. [load_to_es], for any records and any answer of the service,
    leaves the connections alone, adds at most one request after the
    requests posted before, and only adds records at the end of the log. *)
Theorem load_to_es_only_posts_and_logs url records index_name w :
  conns (load_to_es url records index_name w).2 = conns w
  ∧ es_posted w `prefix_of` es_posted (load_to_es url records index_name w).2
  ∧ length (es_posted (load_to_es url records index_name w).2) ≤ S (length (es_posted w))
  ∧ log w `prefix_of` log (load_to_es url records index_name w).2.
Proof. apply load_to_es_world. Qed.

(** X13. An item of the answer without an [index] object ends the loop
    with a fault: the truthy errors of the items before it are logged and
    stay logged, the items after it are not looked at. *)
Theorem load_to_es_stops_at_broken_item url docs index_name w response json_response
    good bad rest :
  es_server w (urljoin url "_bulk") (str_query (bulk_lines index_name docs)) = Ok response →
  json_loads response = Some json_response →
  py_getitem json_response "items" = Ok (JArr (good ++ bad :: rest)) →
  Forall (λ item, is_Some (item_error item)) good →
  item_error bad = None →
  is_fault (load_to_es url (doc_json <$> docs) index_name w).1
  ∧ log (load_to_es url (doc_json <$> docs) index_name w).2
    = log w ++ filter (λ e, py_truthy e = true) (omap item_error good).
Proof.
  intros Hpost Hloads Hitems Hgood Hbad.
  rewrite load_to_es_docs. simpl. rewrite Hpost, Hloads, Hitems. simpl.
  apply (report_errors_broken good bad rest (set_es_posted _ w) Hgood Hbad).
Qed.

(** X14. When every row of the query normalises, [load] posts one request:
    its body holds the documents of the rows, one for each row and in the
    order of the rows, each with the id and the title of its row. *)
Theorem load_posts_all_rows conn url index_name w c :
  conns w !! conn = Some c →
  conn_open c = true →
  Forall (λ row, ∃ doc, _transform_row row (writers_directory (db_writers (conn_db c))) = Ok doc)
    (db_movies (conn_db c)) →
  ∃ docs,
    Forall2 (λ row doc, _transform_row row (writers_directory (db_writers (conn_db c))) = Ok doc)
      (db_movies (conn_db c)) docs
    ∧ es_posted (load conn url index_name w).2
      = es_posted w ++ [(urljoin url "_bulk", str_query (bulk_lines index_name docs))]
    ∧ doc_id <$> docs = row_id <$> db_movies (conn_db c)
    ∧ doc_title <$> docs = row_title <$> db_movies (conn_db c).
Proof.
  intros Hc Hopen Hrows.
  assert (∃ docs, Forall2 (λ row doc,
            _transform_row row (writers_directory (db_writers (conn_db c))) = Ok doc)
            (db_movies (conn_db c)) docs) as [docs Hdocs].
  { induction Hrows as [|row rows [doc Hdoc] _ [docs IH]]; [by exists []|].
    exists (doc :: docs). by constructor. }
  exists docs. split_and!; [done| | |].
  - rewrite load_steps, Hc, Hopen. rewrite (proj2 (for_each_Ok _ _ _) Hdocs).
    apply load_to_es_frame.
  - by apply (transform_rows_ids _ _ _ Hdocs).
  - by apply (transform_rows_ids _ _ _ Hdocs).
Qed.

(** X15. Whatever happens in the run, [main] leaves the connections that
    were there as they were and opens at most one more, to the database file
    [db.sqlite]; it posts at most one request after the requests posted
    before, and only adds to the end of the log. *)
Theorem main_at_most_one_connection w :
  (∃ opened, conns (main w).2 = conns w ++ opened
             ∧ length opened ≤ 1
             ∧ Forall (λ c, conn_db c = files w "db.sqlite") opened)
  ∧ es_posted w `prefix_of` es_posted (main w).2
  ∧ length (es_posted (main w).2) ≤ S (length (es_posted w))
  ∧ log w `prefix_of` log (main w).2.
Proof.
  assert (∀ conn url index_name w0,
            es_posted w0 `prefix_of` es_posted (load conn url index_name w0).2
            ∧ length (es_posted (load conn url index_name w0).2) ≤ S (length (es_posted w0))
            ∧ log w0 `prefix_of` log (load conn url index_name w0).2) as Hload.
  { intros conn url index_name w0. rewrite load_steps.
    destruct (conns w0 !! conn) as [c|]; [|simpl; split_and!; [done|lia|done]].
    destruct (conn_open c); [|simpl; split_and!; [done|lia|done]].
    destruct (for_each _ (db_movies (conn_db c))) as [records|e];
      [|simpl; split_and!; [done|lia|done]].
    destruct (load_to_es_world url (doc_json <$> records) index_name w0) as (_ & ? & ? & ?).
    by split_and!. }
  unfold main. rewrite with_conn_context.
  pose proof (load_conns (length (conns w)) "http://127.0.0.1:9200" "movies"
                (sqlite3_connect "db.sqlite" w).2) as Hconns.
  destruct (Hload (length (conns w)) "http://127.0.0.1:9200" "movies"
              (sqlite3_connect "db.sqlite" w).2) as (Hposted & Hlen & Hlog).
  destruct (load _ _ _ _) as [[v|e] w2]; simpl in *.
  - split_and!; try done.
    exists [{| conn_db := files w "db.sqlite"; conn_open := false |}].
    split_and!; [|done|by repeat constructor]. rewrite Hconns.
    rewrite <- (Nat.add_0_r (length (conns w))). by rewrite alter_app_r.
  - split_and!; try done.
    exists [{| conn_db := files w "db.sqlite"; conn_open := true |}].
    split_and!; [done|done|by repeat constructor].
Qed.

End PipelineMore.

(** ** The further properties on concrete data *)

Lemma transform_row_writers_from_directory_witness :
  _transform_row (H:=sample_lib) sample_row_writers (writers_directory sample_writers)
    = Ok sample_document_writers
  ∧ Forall (λ n, n ≠ NA) (doc_writers_names sample_document_writers).
Proof.
  assert (_transform_row (H:=sample_lib) sample_row_writers (writers_directory sample_writers)
          = Ok sample_document_writers) as Hrun by (vm_compute; reflexivity).
  split; [exact Hrun|].
  destruct (transform_row_writers_from_directory (H:=sample_lib) _ _ _ Hrun)
    as (ks & _ & _ & _ & _ & Hnames). exact Hnames.
Defined.

Lemma transform_row_writers_fault_first_witness :
  json_loads (PyLib:=sample_lib) (row_writers sample_row_two_faults)
    = Some (JArr [id_entry "w9"])
  ∧ py_float (PyLib:=sample_lib) (row_imdb_rating sample_row_two_faults) = None
  ∧ _transform_row (H:=sample_lib) sample_row_two_faults (writers_directory sample_writers)
    = Raise KeyError.
Proof.
  assert (json_loads (PyLib:=sample_lib) (row_writers sample_row_two_faults)
          = Some (JArr [id_entry "w9"])) as Hloads by (vm_compute; reflexivity).
  split_and!; [exact Hloads|reflexivity|].
  apply (transform_row_writers_fault_first (H:=sample_lib) sample_row_two_faults
           (writers_directory sample_writers) (JArr [id_entry "w9"]) KeyError Hloads).
  vm_compute. reflexivity.
Defined.

Lemma transform_row_writers_not_array_witness :
  _transform_row (H:=sample_lib_parsing (JInt 7)) sample_row (writers_directory sample_writers)
  = Raise TypeError.
Proof.
  apply (transform_row_writers_not_array (H:=sample_lib_parsing (JInt 7)) sample_row
           (writers_directory sample_writers) (JInt 7)); [reflexivity|done].
Defined.

Lemma transform_row_field_counts_witness :
  _transform_row (H:=sample_lib) sample_row (writers_directory sample_writers) = Ok sample_document
  ∧ length (doc_genre sample_document) = 2.
Proof.
  assert (_transform_row (H:=sample_lib) sample_row (writers_directory sample_writers)
          = Ok sample_document) as Hrun by (vm_compute; reflexivity).
  split; [exact Hrun|].
  exact (proj1 (transform_row_field_counts (H:=sample_lib) _ _ _ Hrun)).
Defined.

Lemma transform_row_id_title_witness :
  _transform_row (H:=sample_lib) sample_row (writers_directory sample_writers) = Ok sample_document
  ∧ doc_id sample_document = "1" ∧ doc_title sample_document = "X".
Proof.
  assert (_transform_row (H:=sample_lib) sample_row (writers_directory sample_writers)
          = Ok sample_document) as Hrun by (vm_compute; reflexivity).
  split; [exact Hrun|].
  exact (transform_row_id_title (H:=sample_lib) _ _ _ Hrun).
Defined.

Lemma load_writers_names_last_row_witness :
  load_writers_names 0 sample_world_connected
    = (Ok (writers_directory sample_writers), sample_world_connected)
  ∧ writers_directory sample_writers !! "w2"
    = Some {| writer_id := "w2"; writer_name := "N/A" |}.
Proof.
  assert (load_writers_names 0 sample_world_connected
          = (Ok (writers_directory sample_writers), sample_world_connected)) as Hrun
    by reflexivity.
  split; [exact Hrun|].
  destruct (load_writers_names_last_row _ _ _ _ Hrun) as (_ & c & Hc & _ & Hlast & _).
  injection Hc as <-. rewrite Hlast. reflexivity.
Defined.

Lemma bulk_query_missing_id_witness :
  _get_es_bulk_query (H:=sample_lib)
    ([doc_json sample_document] ++ sample_record_without_id :: [doc_json sample_document_writers])
    "movies"
  = Raise KeyError.
Proof.
  apply (bulk_query_missing_id (H:=sample_lib) [doc_json sample_document]
           sample_record_without_id [doc_json sample_document_writers] "movies" KeyError).
  - repeat constructor. by eexists.
  - reflexivity.
Defined.

Lemma load_to_es_fault_after_post_witness :
  (load_to_es (H:=sample_lib) "http://127.0.0.1:9200" (doc_json <$> [sample_document])
     "movies" sample_world_offline).1 = Raise ConnectionError
  ∧ log (load_to_es (H:=sample_lib) "http://127.0.0.1:9200" (doc_json <$> [sample_document])
           "movies" sample_world_offline).2 = [].
Proof.
  rewrite (load_to_es_fault_after_post (H:=sample_lib) "http://127.0.0.1:9200"
             [sample_document] "movies" sample_world_offline ConnectionError);
    [by split|reflexivity].
Defined.

Lemma load_to_es_stops_at_broken_item_witness :
  is_fault (load_to_es (H:=sample_lib_parsing sample_answer_broken_second)
              "http://127.0.0.1:9200" (doc_json <$> [sample_document]) "movies"
              sample_world_refused).1
  ∧ log (load_to_es (H:=sample_lib_parsing sample_answer_broken_second)
           "http://127.0.0.1:9200" (doc_json <$> [sample_document]) "movies"
           sample_world_refused).2 = [sample_error].
Proof.
  apply (load_to_es_stops_at_broken_item (H:=sample_lib_parsing sample_answer_broken_second)
           "http://127.0.0.1:9200" [sample_document] "movies" sample_world_refused
           sample_response sample_answer_broken_second
           [response_item sample_error] (JObj [("create", JObj [])])
           [response_item sample_error]).
  - reflexivity.
  - reflexivity.
  - reflexivity.
  - repeat constructor. by eexists.
  - reflexivity.
Defined.

Lemma load_posts_all_rows_witness :
  ∃ docs,
    doc_id <$> docs = ["1"; "2"; "5"]
    ∧ es_posted (load (H:=sample_lib) 0 "http://127.0.0.1:9200" "movies"
                   sample_world_connected).2
      = [("http://127.0.0.1:9200/_bulk", str_query (bulk_lines (H:=sample_lib) "movies" docs))].
Proof.
  destruct (load_posts_all_rows (H:=sample_lib) 0 "http://127.0.0.1:9200" "movies"
              sample_world_connected
              {| conn_db := files sample_world_refused "db.sqlite"; conn_open := true |})
    as (docs & _ & Hposted & Hids & _).
  - reflexivity.
  - reflexivity.
  - repeat constructor; eexists; vm_compute; reflexivity.
  - exists docs. split; [exact Hids|exact Hposted].
Defined.

Lemma load_row_fault_witness :
  is_fault (load (H:=sample_lib) 0 "http://127.0.0.1:9200" "movies"
              sample_world_connected_missing_writer).1
  ∧ es_posted (load (H:=sample_lib) 0 "http://127.0.0.1:9200" "movies"
                 sample_world_connected_missing_writer).2 = [].
Proof.
  apply (load_row_fault (H:=sample_lib) 0 "http://127.0.0.1:9200" "movies"
           sample_world_connected_missing_writer
           {| conn_db := files sample_world_missing_writer "db.sqlite"; conn_open := true |}
           sample_row_missing_writer).
  - reflexivity.
  - reflexivity.
  - apply list_elem_of_further, list_elem_of_here.
  - exists KeyError. vm_compute. reflexivity.
Defined.

Lemma main_closes_on_success_witness :
  main (H:=sample_lib) sample_world_refused
    = (Ok (), (main (H:=sample_lib) sample_world_refused).2)
  ∧ conns (main (H:=sample_lib) sample_world_refused).2
    = [{| conn_db := files sample_world_refused "db.sqlite"; conn_open := false |}].
Proof.
  assert (main (H:=sample_lib) sample_world_refused
          = (Ok (), (main (H:=sample_lib) sample_world_refused).2)) as Hrun
    by (vm_compute; reflexivity).
  split; [exact Hrun|].
  exact (main_closes_on_success (H:=sample_lib) _ _ _ Hrun).
Defined.
